(** * A shallow embedding of the single-event-upset detector (src/main.py)

    The Python program keeps a large zero-filled [bitarray.bitarray],
    periodically resizes it to a fraction of the free memory
    ([SEUDetector.should_update_array], [SEUDetector.update_array]) and
    periodically scans it for a bit set to 1 ([SEUDetector.check_data]),
    folding the elapsed exposure into a statistics dictionary that is
    written to [stat.json] after every checkpoint.

    Modelling choices:
    - Python integers are [Z]; the arena length is an [N].
    - The statistics arithmetic is written once over a class [PyNum] of
      numeric operations and instantiated both with IEEE-754 binary64
      floats ([PrimFloat], what CPython uses) and with exact rationals
      [Q].
    - The sizing policy and the free-memory computation use exact
      rationals [Q] for the Python true divisions and products.
    - The arena is a bitarray given by its length and the (finite) list
      of positions of its bits equal to 1; every other bit is 0.
    - The program's effects (the arena and the [force_reinit] field,
      the shared [stat] dictionary, the statistics file, the log of
      reallocations, the clock) are threaded through a state and error
      monad over a [world].
    - The clock is idealised: [time.time()] returns the world's clock, an
      integral number of seconds, which only [time.sleep] advances, and
      [time.sleep] sleeps exactly the requested duration. *)

From Stdlib Require Import ZArith QArith Qminmax Qround Lqa List Lia Bool Floats.
Import ListNotations.

Local Set Warnings "-inexact-float".

(** ** Numeric operations of Python on the statistics fields *)

Class PyNum (F : Type) := {
  py_add : F -> F -> F;
  py_sub : F -> F -> F;
  py_mul : F -> F -> F;
  py_div : F -> F -> F;
  py_of_Z : Z -> F
}.

#[global] Instance Q_PyNum : PyNum Q := {
  py_add := Qplus;
  py_sub := Qminus;
  py_mul := Qmult;
  py_div := Qdiv;
  py_of_Z := inject_Z
}.

(** [float(z)] for an integer: exact for |z| < 2^53 and correctly rounded
    below 2^63, the range of every integer the statistics meet. *)
Definition float_of_Z (z : Z) : float :=
  if (z <? 0)%Z
  then PrimFloat.opp (PrimFloat.of_uint63 (Uint63.of_Z (- z)))
  else PrimFloat.of_uint63 (Uint63.of_Z z).

#[global] Instance Float_PyNum : PyNum float := {
  py_add := PrimFloat.add;
  py_sub := PrimFloat.sub;
  py_mul := PrimFloat.mul;
  py_div := PrimFloat.div;
  py_of_Z := float_of_Z
}.

(** ** The statistics record ([TStat]) *)

Record TStat (F : Type) := mkTStat {
  bitSeconds : F;
  GbitHours : F;
  SEUCases : Z;
  runSeconds : F;
  runHours : F
}.
Arguments mkTStat {F}.
Arguments bitSeconds {F}.
Arguments GbitHours {F}.
Arguments SEUCases {F}.
Arguments runSeconds {F}.
Arguments runHours {F}.

(** Lines 183-186 of [check_data]: the four assignments to the exposure
    fields, in their order ([GbitHours] and [runHours] read the fields
    just updated). *)
Definition accumulate {F} `{PyNum F} (stat : TStat F) (len : Z) (period : F)
    : TStat F :=
  let bs := py_add (bitSeconds stat) (py_mul (py_of_Z len) period) in
  let gbh := py_div (py_div bs (py_of_Z 3600)) (py_of_Z (10 ^ 9)) in
  let rs := py_add (runSeconds stat) period in
  let rh := py_div rs (py_of_Z 3600) in
  mkTStat bs gbh (SEUCases stat) rs rh.

(** [stat['SEUCases'] += 1] *)
Definition incr_SEUCases {F} (stat : TStat F) : TStat F :=
  mkTStat (bitSeconds stat) (GbitHours stat) (SEUCases stat + 1)
          (runSeconds stat) (runHours stat).

(** The record returned by [load_statistics] when the file is absent. *)
Definition zero_stat {F} `{PyNum F} : TStat F :=
  mkTStat (py_of_Z 0) (py_of_Z 0) 0%Z (py_of_Z 0) (py_of_Z 0).

(** ** The arena: a [bitarray.bitarray] *)

Record bitarray := mk_bitarray {
  ba_len : N;
  ba_ones : list N   (* positions of the bits equal to 1 *)
}.

(** [a[i]] for [0 <= i < len(a)] *)
Definition ba_get (a : bitarray) (i : N) : bool :=
  (i <? ba_len a)%N && existsb (N.eqb i) (ba_ones a).

(** [bitarray.bitarray(n)]: a fresh array of [n] bits; a negative length
    raises [ValueError]. *)
Definition ba_new (n : Z) : option bitarray :=
  if (n <? 0)%Z then None else Some (mk_bitarray (Z.to_N n) []).

(** [a.setall(0)] *)
Definition ba_setall0 (a : bitarray) : bitarray := mk_bitarray (ba_len a) [].

(** [a.index(bitarray('1'))]: the lowest position holding a 1; [None]
    stands for the [ValueError] raised when there is none. *)
Definition ba_index_step (len : N) (j : N) (acc : option N) : option N :=
  if (j <? len)%N
  then match acc with
       | None => Some j
       | Some m => Some (N.min j m)
       end
  else acc.

Definition ba_index_one (a : bitarray) : option N :=
  fold_right (ba_index_step (ba_len a)) None (ba_ones a).

(** An external fault flipping bit [i] to 1 (the phenomenon measured). *)
Definition ba_flip_to_one (a : bitarray) (i : N) : bitarray :=
  if (i <? ba_len a)%N then mk_bitarray (ba_len a) (i :: ba_ones a) else a.

(** ** Constants of [SEUDetector] *)

Definition FREE_MEMORY_USAGE_RATE : Q := 3 # 4.   (* 0.75 *)
Definition CHECK_MEMORY_EVERY : Z := 1.
Definition CHECK_DATA_EVERY : Z := 10.
Definition RELATIVE_DATA_LENGTH_CHANGE_TO_UPDATE : Q := 1 # 5.   (* 0.2 *)

Definition NO_UPDATE : Z := 0.
Definition UPDATE_NO_CHECK : Z := 1.
Definition UPDATE_WITH_CHECK : Z := 2.

(** ** The detector object and the world it runs in *)

Record detector := mk_detector {
  data : bitarray;
  force_reinit : bool
}.

Record world := mk_world {
  w_det : detector;          (* the [SEUDetector] instance *)
  w_stat : TStat Q;          (* the [stat] dictionary shared by [run] *)
  w_file : list (TStat Q);   (* versions of [stat.json], newest first;
                                [] when the file does not exist *)
  w_allocs : list (N * Z);   (* reallocations logged by [update_array]:
                                (old length, requested length) *)
  w_clock : Z                (* [time.time()] *)
}.

Inductive py_error :=
| ZeroDivisionError
| ValueError_int (v : Z)     (* [raise ValueError(should)] *)
| ValueError_msg.            (* the library's own [ValueError]s *)

(** *** A state and error monad over the world *)

Definition M (A : Type) : Type := world -> py_error + (A * world).

Definition ret {A} (a : A) : M A := fun w => inr (a, w).
Definition bind {A B} (m : M A) (k : A -> M B) : M B :=
  fun w => match m w with
           | inl e => inl e
           | inr (a, w') => k a w'
           end.
Definition raise {A} (e : py_error) : M A := fun _ => inl e.

Declare Scope monad_scope.
Notation "x <- m ;; k" := (bind m (fun x => k))
  (at level 61, m at next level, right associativity) : monad_scope.
Notation "m ;; k" := (bind m (fun _ => k))
  (at level 61, right associativity) : monad_scope.
Open Scope monad_scope.

Definition get_det : M detector := fun w => inr (w_det w, w).
Definition put_det (d : detector) : M unit :=
  fun w => inr (tt, mk_world d (w_stat w) (w_file w) (w_allocs w) (w_clock w)).
Definition get_stat : M (TStat Q) := fun w => inr (w_stat w, w).
Definition put_stat (s : TStat Q) : M unit :=
  fun w => inr (tt, mk_world (w_det w) s (w_file w) (w_allocs w) (w_clock w)).
Definition log_alloc (from : N) (to : Z) : M unit :=
  fun w => inr (tt, mk_world (w_det w) (w_stat w) (w_file w)
                             (w_allocs w ++ [(from, to)]) (w_clock w)).

(** [time.time()] *)
Definition time_time : M Z := fun w => inr (w_clock w, w).

(** [time.sleep(d)]; a negative duration raises [ValueError]. *)
Definition time_sleep (d : Z) : M unit :=
  fun w => if (d <? 0)%Z then inl ValueError_msg
           else inr (tt, mk_world (w_det w) (w_stat w) (w_file w)
                                  (w_allocs w) (w_clock w + d)).

(** [int(x)] on a float: truncation towards zero. *)
Definition Qtrunc (q : Q) : Z := Z.quot (Qnum q) (Zpos (Qden q)).

(** [x > y] on rationals *)
Definition Qlt_bool (x y : Q) : bool := negb (Qle_bool y x).

(** [a / b] on Python integers: true division. *)
Definition py_truediv (a b : Z) : M Q :=
  if (b =? 0)%Z then raise ZeroDivisionError
  else ret (inject_Z a / inject_Z b).

Section Detector.

(** [psutil.virtual_memory().free], as a function of the time of the query *)
Variable free_memory : Z -> Z.

Definition get_free_memory : M Z := fun w => inr (free_memory (w_clock w), w).

Definition get_memory_to_use : M Z :=
  free <- get_free_memory ;;
  d <- get_det ;;
  let used := inject_Z (Z.of_N (ba_len (data d))) / inject_Z 8 in
  let total := inject_Z free + used in
  let to_use := Qtrunc (total * FREE_MEMORY_USAGE_RATE) in
  ret to_use.

Definition should_update_array (use_bits : Z) : M Z :=
  d <- get_det ;;
  if force_reinit d then
    put_det (mk_detector (data d) false) ;;
    ret UPDATE_NO_CHECK
  else
    let len := Z.of_N (ba_len (data d)) in
    if negb (use_bits =? 0)%Z && (len =? 0)%Z then ret UPDATE_NO_CHECK
    else if (use_bits =? 0)%Z && negb (len =? 0)%Z then ret UPDATE_NO_CHECK
    else if (use_bits =? 0)%Z && (len =? 0)%Z then ret NO_UPDATE
    else
      let delta := (use_bits - len)%Z in
      rel <- py_truediv (Z.abs delta) (Z.min use_bits len) ;;
      if Qlt_bool RELATIVE_DATA_LENGTH_CHANGE_TO_UPDATE rel then
        if (delta >? 0)%Z then ret UPDATE_WITH_CHECK else ret UPDATE_NO_CHECK
      else ret NO_UPDATE.

Definition load_statistics : M (TStat Q) :=
  fun w => match w_file w with
           | [] => inr (zero_stat, w)          (* FileNotFoundError *)
           | s :: _ => inr (s, w)
           end.

Definition dump_statistics (stat : TStat Q) : M unit :=
  fun w => inr (tt, mk_world (w_det w) (w_stat w) (stat :: w_file w)
                             (w_allocs w) (w_clock w)).

Definition update_array (use_bits : Z) : M unit :=
  d <- get_det ;;
  log_alloc (ba_len (data d)) use_bits ;;
  match ba_new use_bits with
  | None => raise ValueError_msg
  | Some a => put_det (mk_detector (ba_setall0 a) (force_reinit d))
  end.

Definition check_data (start_at : Z) : M unit :=
  now <- time_time ;;
  let period := inject_Z (now - start_at) in
  d <- get_det ;;
  stat <- get_stat ;;
  let stat1 := accumulate stat (Z.of_N (ba_len (data d))) period in
  match ba_index_one (data d) with
  | None =>
      put_stat stat1 ;;
      dump_statistics stat1
  | Some _ =>
      let stat2 := incr_SEUCases stat1 in
      put_stat stat2 ;;
      put_det (mk_detector (data d) true) ;;
      dump_statistics stat2
  end.

(** The branch of [run_once] taken when the memory check is due: [None]
    when [run_once] returns, [Some t] when it goes on with
    [last_check_mem = t]. *)
Definition memory_check (start_at : Z) : M (option Z) :=
  use_bytes <- get_memory_to_use ;;
  let use_bits := (use_bytes * 8)%Z in
  should <- should_update_array use_bits ;;
  if (should =? UPDATE_NO_CHECK)%Z then
    update_array use_bits ;; ret None
  else if (should =? UPDATE_WITH_CHECK)%Z then
    check_data start_at ;; update_array use_bits ;; ret None
  else if (should =? NO_UPDATE)%Z then
    t <- time_time ;; ret (Some t)
  else raise (ValueError_int should).

(** The [while True] loop of [run_once], with [fuel] iterations; [true]
    when [run_once] returns, [false] when the fuel runs out. *)
Fixpoint run_once_loop (fuel : nat) (start_at last_check_mem last_check_data : Z)
    : M bool :=
  match fuel with
  | O => ret false
  | S fuel' =>
      t1 <- time_time ;;
      t2 <- time_time ;;
      let sleep_for := Z.min (CHECK_MEMORY_EVERY - (t1 - last_check_mem))
                             (CHECK_DATA_EVERY - (t2 - last_check_data)) in
      time_sleep sleep_for ;;
      let data_due := fun lcm =>
        t4 <- time_time ;;
        if (CHECK_DATA_EVERY <=? t4 - last_check_data)%Z then
          check_data start_at ;; ret true
        else run_once_loop fuel' start_at lcm last_check_data in
      t3 <- time_time ;;
      if (CHECK_MEMORY_EVERY <=? t3 - last_check_mem)%Z then
        r <- memory_check start_at ;;
        match r with
        | None => ret true
        | Some lcm => data_due lcm
        end
      else data_due last_check_mem
  end.

Definition run_once (fuel : nat) : M bool :=
  start_at <- time_time ;;
  run_once_loop fuel start_at start_at start_at.

(** [while True: self.run_once(stat)], for [n] rounds of [run_once]. *)
Fixpoint run_loop (fuel : nat) (n : nat) : M unit :=
  match n with
  | O => ret tt
  | S n' =>
      finished <- run_once fuel ;;
      if finished then run_loop fuel n' else ret tt
  end.

(** The first two lines of [run]. *)
Definition run_init : M unit :=
  stat <- load_statistics ;;
  put_stat stat ;;
  m <- get_memory_to_use ;;
  update_array (m * 8).

Definition run (fuel : nat) (n : nat) : M unit :=
  run_init ;;
  run_loop fuel n.

End Detector.

(** ** Derived notions used in the statements *)

(** The value an operation returns from a world, when it does not raise. *)
Definition result_of {A} (m : M A) (w : world) : option A :=
  match m w with
  | inl _ => None
  | inr (a, _) => Some a
  end.

(** Versions of the statistics file (newest first) whose run time and
    exposure strictly grow from each version to the next. *)
Fixpoint strictly_growing (l : list (TStat Q)) : Prop :=
  match l with
  | s1 :: ((s0 :: _) as rest) =>
      (runSeconds s0 < runSeconds s1)%Q /\ (bitSeconds s0 < bitSeconds s1)%Q /\
      strictly_growing rest
  | _ => True
  end.

(** The world of a fresh process: [SEUDetector()] before [run], with the
    statistics file absent. *)
Definition fresh_world (clock : Z) : world :=
  mk_world (mk_detector (mk_bitarray 0 []) false) zero_stat [] [] clock.

(** A free-memory probe reporting 1 GB on every query. *)
Definition probe_1GB : Z -> Z := fun _ => (10 ^ 9)%Z.

(** The arena the detector settles on under [probe_1GB]. *)
Definition settled_det : detector := mk_detector (mk_bitarray 13875000000 []) false.

(** The reallocations [update_array] logs before settling under [probe_1GB]:
    0.75 GB, 1.3125 GB, then 1.734375 GB of bits. *)
Definition allocs_1GB : list (N * Z) :=
  [(0%N, 6000000000%Z); (6000000000%N, 10500000000%Z);
   (10500000000%N, 13875000000%Z)].

(** ** Worlds produced by the steps of a round of [run_once] *)

(** The world [seconds] later, nothing else having happened. *)
Definition tick (seconds : Z) (w : world) : world :=
  mk_world (w_det w) (w_stat w) (w_file w) (w_allocs w) (w_clock w + seconds).

(** The world after [should_update_array] (it clears [force_reinit]). *)
Definition clear_force (w : world) : world :=
  mk_world (mk_detector (data (w_det w)) false) (w_stat w) (w_file w)
           (w_allocs w) (w_clock w).

(** The world after a successful [update_array(use_bits)]. *)
Definition realloc_world (use_bits : Z) (w : world) : world :=
  mk_world (mk_detector (mk_bitarray (Z.to_N use_bits) []) (force_reinit (w_det w)))
           (w_stat w) (w_file w)
           (w_allocs w ++ [(ba_len (data (w_det w)), use_bits)]) (w_clock w).

(** The world after [check_data(start_at)]. *)
Definition checkpoint_world (start_at : Z) (w : world) : world :=
  let stat1 := accumulate (w_stat w) (Z.of_N (ba_len (data (w_det w))))
                          (inject_Z (w_clock w - start_at)) in
  match ba_index_one (data (w_det w)) with
  | None => mk_world (w_det w) stat1 (stat1 :: w_file w) (w_allocs w) (w_clock w)
  | Some _ => mk_world (mk_detector (data (w_det w)) true) (incr_SEUCases stat1)
                       (incr_SEUCases stat1 :: w_file w) (w_allocs w) (w_clock w)
  end.

(** [get_memory_to_use() * 8], the length the memory check asks for. *)
Definition memory_target (free_memory : Z -> Z) (w : world) : Z :=
  (Qtrunc ((inject_Z (free_memory (w_clock w)) +
            inject_Z (Z.of_N (ba_len (data (w_det w)))) / inject_Z 8) *
           FREE_MEMORY_USAGE_RATE) * 8)%Z.

(** The derived fields of a statistics record agree with its counters. *)
Definition stat_consistent (s : TStat Q) : Prop :=
  (GbitHours s == bitSeconds s / inject_Z 3600 / inject_Z (10 ^ 9)%Z) /\
  (runHours s == runSeconds s / inject_Z 3600).

(** The statistics record after a checkpoint of the arena [a] covering
    [period] seconds. *)
Definition checkpoint_stat (s : TStat Q) (a : bitarray) (period : Z) : TStat Q :=
  let s1 := accumulate s (Z.of_N (ba_len a)) (inject_Z period) in
  match ba_index_one a with
  | None => s1
  | Some _ => incr_SEUCases s1
  end.

(** How a round of [run_once] started at [start_at] on the world [w] ends
    in the world [w'], within [m] seconds: after [j] one-second waits the
    memory check on the world [tick j w] either reallocates, or checkpoints
    and then grows the arena, or (after the last wait) finds no change due
    and the data check checkpoints. *)
Definition round_outcome (free_memory : Z -> Z) (start_at m : Z) (w w' : world) : Prop :=
  exists j, (1 <= j <= m)%Z /\ (force_reinit (w_det w) = true -> j = 1%Z) /\
    (let x := tick j w in
     let u := memory_target free_memory x in
     (result_of (should_update_array u) x = Some UPDATE_NO_CHECK /\
      w' = realloc_world u (clear_force x)) \/
     (result_of (should_update_array u) x = Some UPDATE_WITH_CHECK /\
      force_reinit (w_det w) = false /\
      w' = realloc_world u (checkpoint_world start_at x)) \/
     (j = m /\ result_of (should_update_array u) x = Some NO_UPDATE /\
      force_reinit (w_det w) = false /\ w' = checkpoint_world start_at x)).

(** [n] successive rounds of [run_once] leading from [w] to [w']. *)
Fixpoint rounds (free_memory : Z -> Z) (n : nat) (w w' : world) : Prop :=
  match n with
  | O => w' = w
  | S n' => exists w1, round_outcome free_memory (w_clock w) 10 w w1 /\
                       rounds free_memory n' w1 w'
  end.

(** The record [load_statistics] returns: the file's content, or zeros. *)
Definition stat_on_disk (w : world) : TStat Q :=
  match w_file w with
  | [] => zero_stat
  | s :: _ => s
  end.

(** The statistics file holds the in-memory record as its newest version,
    or is still absent while the record is all zeros. *)
Definition file_mirrors_stat (w : world) : Prop :=
  (w_file w = [] /\ w_stat w = zero_stat) \/ (exists rest, w_file w = w_stat w :: rest).

(** The arena length reached from [len] by following the reallocation log
    [l], when each entry starts from the length the previous one made. *)
Fixpoint chain_ok (len : N) (l : list (N * Z)) : option N :=
  match l with
  | [] => Some len
  | (from, to) :: rest =>
      if (N.eqb from len && (0 <=? to)%Z)%bool then chain_ok (Z.to_N to) rest else None
  end.

(** ** A program logic for [M] *)

Definition hoare {A} (P : world -> Prop) (m : M A) (Q : A -> world -> Prop)
    (E : py_error -> Prop) : Prop :=
  forall w, P w -> match m w with
                   | inl e => E e
                   | inr (a, w') => Q a w'
                   end.

Lemma hoare_bind {A B} P (m : M A) R (k : A -> M B) Q E :
  hoare P m R E -> (forall a, hoare (R a) (k a) Q E) -> hoare P (bind m k) Q E.
Proof.
  intros Hm Hk w Hw. unfold bind. specialize (Hm w Hw).
  destruct (m w) as [e | [a w']]; [exact Hm | exact (Hk a w' Hm)].
Qed.

Lemma hoare_ret {A} P (a : A) Q E :
  (forall w, P w -> Q a w) -> hoare P (ret a) Q E.
Proof. intros H w Hw. exact (H w Hw). Qed.

Lemma hoare_raise {A} P e (Q : A -> world -> Prop) (E : py_error -> Prop) :
  E e -> hoare P (raise e) Q E.
Proof. intros H w _. exact H. Qed.

Lemma hoare_pre {A} (P P' : world -> Prop) (m : M A) Q E :
  (forall w, P w -> P' w) -> hoare P' m Q E -> hoare P m Q E.
Proof. intros HP H w Hw. exact (H w (HP w Hw)). Qed.

Lemma hoare_post {A} P (m : M A) (Q Q' : A -> world -> Prop) E :
  (forall a w, Q' a w -> Q a w) -> hoare P m Q' E -> hoare P m Q E.
Proof.
  intros HQ H w Hw. specialize (H w Hw). destruct (m w) as [e | [a w']]; auto.
Qed.

Lemma hoare_exists_pre {A T} (P : T -> world -> Prop) (m : M A) Q E :
  (forall x, hoare (P x) m Q E) -> hoare (fun w => exists x, P x w) m Q E.
Proof. intros H w [x Hx]. exact (H x w Hx). Qed.

Ltac hoare_step :=
  match goal with
  | |- hoare _ (bind _ _) _ _ => eapply hoare_bind
  | |- hoare _ (ret _) _ _ => apply hoare_ret
  end.

(** ** The scan of the arena *)

Section Scan.

Variable len : N.

Lemma scan_none (l : list N) :
  fold_right (ba_index_step len) None l = None <-> (forall j, In j l -> (len <= j)%N).
Proof.
  induction l as [| x l IH]; simpl.
  - split; [intros _ j [] | reflexivity].
  - unfold ba_index_step at 1. destruct (N.ltb_spec x len) as [Hx | Hx].
    + split; [destruct (fold_right (ba_index_step len) None l); discriminate |].
      intros H. specialize (H x (or_introl eq_refl)). lia.
    + rewrite IH. split.
      * intros H j [<- | Hj]; [lia | auto].
      * intros H j Hj. apply H. auto.
Qed.

Lemma scan_some (l : list N) (m : N) :
  fold_right (ba_index_step len) None l = Some m ->
  In m l /\ (m < len)%N /\ (forall j, In j l -> (j < len)%N -> (m <= j)%N).
Proof.
  revert m. induction l as [| x l IH]; simpl; intros m H; [discriminate |].
  unfold ba_index_step at 1 in H. destruct (N.ltb_spec x len) as [Hx | Hx].
  - destruct (fold_right (ba_index_step len) None l) as [m' |] eqn:Hr.
    + injection H as <-. destruct (IH m' eq_refl) as (Hin & Hlt & Hmin).
      destruct (N.min_spec x m') as [[Hle Heq] | [Hle Heq]]; rewrite Heq.
      * split; [auto |]. split; [lia |].
        intros j [<- | Hj] Hjl; [lia |]. specialize (Hmin j Hj Hjl). lia.
      * split; [auto |]. split; [lia |].
        intros j [<- | Hj] Hjl; [lia |]. auto.
    + injection H as <-. split; [auto |]. split; [lia |].
      intros j [<- | Hj] Hjl; [lia |].
      apply (proj1 (scan_none l)) with (j := j) in Hr; [lia | auto].
  - destruct (IH m H) as (Hin & Hlt & Hmin). split; [auto |]. split; [auto |].
    intros j [<- | Hj] Hjl; [lia | auto].
Qed.

End Scan.

Lemma ba_get_true (a : bitarray) (i : N) :
  ba_get a i = true <-> (i < ba_len a)%N /\ In i (ba_ones a).
Proof.
  unfold ba_get. rewrite andb_true_iff, N.ltb_lt, existsb_exists.
  split; intros [H1 H2]; split; auto.
  - destruct H2 as [x [Hx Heq]]. apply N.eqb_eq in Heq. subst. exact Hx.
  - exists i. split; [exact H2 | apply N.eqb_refl].
Qed.

Lemma ba_get_false (a : bitarray) (i : N) :
  ba_get a i = false <-> ~ ((i < ba_len a)%N /\ In i (ba_ones a)).
Proof. rewrite <- ba_get_true. destruct (ba_get a i); intuition discriminate. Qed.


(** C5: the scan of [check_data] ([self.data.index(one)]) returns the
    lowest index of a bit equal to 1 when one is set, and nothing (the
    [ValueError] branch) when every bit is 0. *)
Theorem scan_finds_first_one (a : bitarray) :
  (forall i, ba_index_one a = Some i <->
             ba_get a i = true /\ (forall j, (j < i)%N -> ba_get a j = false)) /\
  (ba_index_one a = None <-> (forall i, ba_get a i = false)).
Proof.
  unfold ba_index_one.
  assert (Hnone : fold_right (ba_index_step (ba_len a)) None (ba_ones a) = None <->
                  (forall i, ba_get a i = false)).
  { rewrite scan_none. split.
    - intros H i. apply ba_get_false. intros [Hi Hin]. specialize (H i Hin). lia.
    - intros H j Hj. specialize (H j). rewrite ba_get_false in H.
      destruct (N.lt_ge_cases j (ba_len a)); [exfalso; auto | auto]. }
  split; [| exact Hnone].
  intros i. split.
  - intros H. destruct (scan_some _ _ _ H) as (Hin & Hlt & Hmin).
    split; [apply ba_get_true; auto |].
    intros j Hj. apply ba_get_false. intros [Hjl Hjin].
    specialize (Hmin j Hjin Hjl). lia.
  - intros [Hi Hbelow].
    destruct (fold_right (ba_index_step (ba_len a)) None (ba_ones a)) as [m |] eqn:Hr.
    + destruct (scan_some _ _ _ Hr) as (Hin & Hlt & Hmin).
      apply ba_get_true in Hi. destruct Hi as [Hil Hiin].
      specialize (Hmin i Hiin Hil).
      destruct (N.eq_dec m i) as [-> | Hne]; [reflexivity |].
      assert (Hmi : (m < i)%N) by lia.
      specialize (Hbelow m Hmi). rewrite ba_get_false in Hbelow.
      exfalso. auto.
    + rewrite (proj1 Hnone eq_refl i) in Hi. discriminate.
Qed.


(** C6: [update_array(n)] for any [n >= 0], including 0, succeeds and
    leaves an arena of [n] bits in which the scan finds no bit set. *)
Theorem update_array_then_scan_none (n : Z) (w : world) :
  (0 <= n)%Z ->
  exists w', update_array n w = inr (tt, w') /\
             ba_len (data (w_det w')) = Z.to_N n /\
             ba_index_one (data (w_det w')) = None.
Proof.
  intros Hn. unfold update_array, bind, get_det, log_alloc, ba_new.
  destruct (Z.ltb_spec n 0) as [Hlt | _]; [lia |].
  eexists. split; [reflexivity |]. split; reflexivity.
Qed.

Lemma update_array_then_scan_none_witness :
  exists w', update_array 0 (fresh_world 0) = inr (tt, w') /\
             ba_len (data (w_det w')) = Z.to_N 0 /\
             ba_index_one (data (w_det w')) = None.
Proof. apply (update_array_then_scan_none 0 (fresh_world 0)). lia. Defined.


(** C8: with no statistics file, [load_statistics] raises nothing and
    returns the record whose five fields are all 0. *)
Theorem load_statistics_absent_file (w : world) :
  w_file w = [] ->
  load_statistics w = inr (mkTStat 0 0 0%Z 0 0, w).
Proof. intros H. unfold load_statistics. rewrite H. reflexivity. Qed.

Lemma load_statistics_absent_file_witness :
  load_statistics (fresh_world 0) = inr (mkTStat 0 0 0%Z 0 0, fresh_world 0).
Proof. apply load_statistics_absent_file. reflexivity. Defined.


(** C3: a checkpoint adds [L * elapsed] to [bitSeconds] and [elapsed] to
    [runSeconds], and recomputes [GbitHours = bitSeconds / 3600 / 10**9]
    and [runHours = runSeconds / 3600] from the updated fields; this holds
    for every numeric type (binary64 floats included), and [check_data]
    applies it with the arena length and [time.time() - start_at], so the
    two equations hold for the dictionary after every checkpoint. *)
Theorem checkpoint_accumulates :
  (forall (F : Type) (NF : PyNum F) (stat : TStat F) (L : Z) (elapsed : F),
     let s' := accumulate stat L elapsed in
     bitSeconds s' = py_add (bitSeconds stat) (py_mul (py_of_Z L) elapsed) /\
     runSeconds s' = py_add (runSeconds stat) elapsed /\
     GbitHours s' = py_div (py_div (bitSeconds s') (py_of_Z 3600)) (py_of_Z (10 ^ 9)) /\
     runHours s' = py_div (runSeconds s') (py_of_Z 3600)) /\
  (forall (start_at : Z) (w : world),
     exists w', check_data start_at w = inr (tt, w') /\
     let L := Z.of_N (ba_len (data (w_det w))) in
     let elapsed := inject_Z (w_clock w - start_at) in
     let s' := w_stat w' in
     bitSeconds s' = bitSeconds (w_stat w) + inject_Z L * elapsed /\
     runSeconds s' = runSeconds (w_stat w) + elapsed /\
     GbitHours s' = bitSeconds s' / inject_Z 3600 / inject_Z (10 ^ 9) /\
     runHours s' = runSeconds s' / inject_Z 3600 /\
     w_file w' = s' :: w_file w).
Proof.
  split.
  - intros F NF stat L elapsed s'. repeat split.
  - intros start_at w. unfold check_data, bind, time_time, get_det, get_stat.
    destruct (ba_index_one (data (w_det w))); eexists; (split; [reflexivity |]);
      repeat split.
Qed.


(** C7 (as stated, false): two checkpoints of [t1] and [t2] seconds need
    not give the same [runSeconds] as one of [t1 + t2] seconds with the
    binary64 floats of the code: from [runSeconds = 0.1], [t1 = 0.2] and
    [t2 = 0.3] the two results are 0.6000000000000001 and 0.6. *)
Lemma checkpoint_split_float_counterexample :
  ~ (forall (stat : TStat float) (L : Z) (t1 t2 : float),
       bitSeconds (accumulate (accumulate stat L t1) L t2) =
         bitSeconds (accumulate stat L (PrimFloat.add t1 t2)) /\
       runSeconds (accumulate (accumulate stat L t1) L t2) =
         runSeconds (accumulate stat L (PrimFloat.add t1 t2))).
Proof.
  intros H.
  destruct (H (mkTStat 0%float 0%float 0%Z 0.1%float 0%float) 0%Z 0.2%float 0.3%float)
    as [_ Hrun].
  apply (f_equal (fun x => PrimFloat.eqb x 0.6%float)) in Hrun.
  vm_compute in Hrun. discriminate Hrun.
Qed.

(** C7 (amended): in exact arithmetic, two checkpoints of [t1] and [t2]
    seconds at a constant length [L] give the same [bitSeconds] and
    [runSeconds] as one checkpoint of [t1 + t2] seconds. *)
Theorem checkpoint_split_exact (stat : TStat Q) (L : Z) (t1 t2 : Q) :
  bitSeconds (accumulate (accumulate stat L t1) L t2) ==
    bitSeconds (accumulate stat L (t1 + t2)) /\
  runSeconds (accumulate (accumulate stat L t1) L t2) ==
    runSeconds (accumulate stat L (t1 + t2)).
Proof. simpl. split; ring. Qed.


(** C10: a checkpoint over an arena with no bit set leaves the detector
    ([data] and [force_reinit]) and [SEUCases] as they are: only
    [bitSeconds], [GbitHours], [runSeconds] and [runHours] change (and the
    record is written to the file). *)
Theorem check_data_no_upset_frame (start_at : Z) (w : world) :
  ba_index_one (data (w_det w)) = None ->
  exists bs gbh rs rh,
    check_data start_at w =
      inr (tt, mk_world (w_det w) (mkTStat bs gbh (SEUCases (w_stat w)) rs rh)
                        (mkTStat bs gbh (SEUCases (w_stat w)) rs rh :: w_file w)
                        (w_allocs w) (w_clock w)).
Proof.
  intros H. unfold check_data, bind, time_time, get_det, get_stat, put_stat,
    dump_statistics. rewrite H. do 4 eexists. reflexivity.
Qed.

Lemma check_data_no_upset_frame_witness :
  exists bs gbh rs rh,
    check_data 0 (mk_world (mk_detector (mk_bitarray 8 [9%N]) true) zero_stat [] [] 5) =
      inr (tt, mk_world (mk_detector (mk_bitarray 8 [9%N]) true)
                        (mkTStat bs gbh 0%Z rs rh) (mkTStat bs gbh 0%Z rs rh :: [])
                        [] 5).
Proof.
  apply (check_data_no_upset_frame 0
           (mk_world (mk_detector (mk_bitarray 8 [9%N]) true) zero_stat [] [] 5)).
  vm_compute. reflexivity.
Defined.

(** ** The sizing policy *)

Lemma Qlt_bool_iff (x y : Q) : Qlt_bool x y = true <-> x < y.
Proof.
  unfold Qlt_bool. rewrite negb_true_iff.
  split; intros H.
  - apply Qnot_le_lt. intros Hle. apply Qle_bool_iff in Hle. congruence.
  - destruct (Qle_bool y x) eqn:E; [| reflexivity].
    apply Qle_bool_iff in E. exfalso. apply (Qlt_not_le x y H E).
Qed.

Lemma Qlt_bool_false (x y : Q) : Qlt_bool x y = false <-> ~ x < y.
Proof. rewrite <- Qlt_bool_iff. destruct (Qlt_bool x y); intuition discriminate. Qed.

Ltac decision_iffs :=
  unfold UPDATE_WITH_CHECK, UPDATE_NO_CHECK, NO_UPDATE in *;
  repeat split; try intros;
  solve [ reflexivity | congruence | tauto | lia
        | match goal with H : _ \/ _ |- _ =>
            destruct H as [[? ?] | [? ?]]; solve [lia | tauto] end
        | exfalso; match goal with H : ~ (_ \/ _) |- _ => apply H end;
          solve [left; split; [assumption | lia] | right; split; [assumption | lia]] ].


(** C1: with [force_reinit] false, [should_update_array] gives the tabulated
    decisions for the lengths 0 and 1000, and for positive current and
    desired lengths it decides UPDATE_WITH_CHECK exactly when
    [|desired - current| / min(desired, current) > 0.2] and the arena grows,
    UPDATE_NO_CHECK exactly when that ratio exceeds 0.2 and it shrinks, and
    NO_UPDATE otherwise. *)
Theorem should_update_array_decisions (w : world) :
  force_reinit (w_det w) = false ->
  let cur := Z.of_N (ba_len (data (w_det w))) in
  let decide desired := result_of (should_update_array desired) w in
  (cur = 0%Z ->
     decide 1000%Z = Some UPDATE_NO_CHECK /\ decide 0%Z = Some NO_UPDATE) /\
  (cur = 1000%Z ->
     decide 0%Z = Some UPDATE_NO_CHECK /\ decide 1300%Z = Some UPDATE_WITH_CHECK /\
     decide 700%Z = Some UPDATE_NO_CHECK /\ decide 1100%Z = Some NO_UPDATE) /\
  (forall desired : Z, (0 < cur)%Z -> (0 < desired)%Z ->
     let rel := inject_Z (Z.abs (desired - cur)) / inject_Z (Z.min desired cur) in
     (decide desired = Some UPDATE_WITH_CHECK <-> 1 # 5 < rel /\ (cur < desired)%Z) /\
     (decide desired = Some UPDATE_NO_CHECK <-> 1 # 5 < rel /\ (desired < cur)%Z) /\
     (decide desired = Some NO_UPDATE <->
        ~ ((1 # 5 < rel /\ (cur < desired)%Z) \/ (1 # 5 < rel /\ (desired < cur)%Z)))).
Proof.
  intros Hf cur decide. subst decide.
  unfold result_of, should_update_array, bind, get_det. rewrite Hf. fold cur.
  split; [| split].
  - intros Hc. rewrite Hc. split; reflexivity.
  - intros Hc. rewrite Hc. repeat split; reflexivity.
  - intros d Hc Hd.
    set (rel := inject_Z (Z.abs (d - cur)) / inject_Z (Z.min d cur)).
    destruct (Z.eqb_spec d 0) as [| _]; [lia |].
    destruct (Z.eqb_spec cur 0) as [| _]; [lia |]. simpl.
    unfold py_truediv. destruct (Z.eqb_spec (Z.min d cur) 0) as [| _]; [lia |].
    unfold ret, bind. fold rel.
    destruct (Qlt_bool RELATIVE_DATA_LENGTH_CHANGE_TO_UPDATE rel) eqn:Hr;
      [apply Qlt_bool_iff in Hr | apply Qlt_bool_false in Hr];
      unfold RELATIVE_DATA_LENGTH_CHANGE_TO_UPDATE in Hr.
    + destruct (Z.gtb_spec (d - cur) 0).
      * decision_iffs.
      * assert (d <> cur).
        { intros Heq. unfold rel in Hr. rewrite Heq, Z.sub_diag in Hr.
          unfold Qlt in Hr. simpl in Hr. lia. }
        decision_iffs.
    + decision_iffs.
Qed.

Lemma should_update_array_decisions_witness :
  result_of (should_update_array 1300%Z)
    (mk_world (mk_detector (mk_bitarray 1000 []) false) zero_stat [] [] 0) =
    Some UPDATE_WITH_CHECK.
Proof.
  destruct (should_update_array_decisions
              (mk_world (mk_detector (mk_bitarray 1000 []) false) zero_stat [] [] 0)
              eq_refl) as [_ [H1000 _]].
  destruct (H1000 eq_refl) as [_ [H1300 _]].
  exact H1300.
Defined.

(** ** Effects of the operations of [SEUDetector] *)

Lemma should_update_array_cases (u : Z) (w : world) :
  exists v, should_update_array u w =
              inr (v, mk_world (mk_detector (data (w_det w)) false) (w_stat w)
                               (w_file w) (w_allocs w) (w_clock w)) /\
            (v = NO_UPDATE \/ v = UPDATE_NO_CHECK \/ v = UPDATE_WITH_CHECK) /\
            (force_reinit (w_det w) = true -> v = UPDATE_NO_CHECK).
Proof.
  destruct w as [[a f] s fl al c]. unfold should_update_array, bind, get_det, put_det.
  simpl. destruct f.
  - exists UPDATE_NO_CHECK. repeat split; auto.
  - destruct (negb (u =? 0)%Z && (Z.of_N (ba_len a) =? 0)%Z) eqn:H1.
    { exists UPDATE_NO_CHECK. repeat split; auto; intros; discriminate. }
    destruct ((u =? 0)%Z && negb (Z.of_N (ba_len a) =? 0)%Z) eqn:H2.
    { exists UPDATE_NO_CHECK. repeat split; auto; intros; discriminate. }
    destruct ((u =? 0)%Z && (Z.of_N (ba_len a) =? 0)%Z) eqn:Hzz.
    { exists NO_UPDATE. repeat split; auto; intros; discriminate. }
    unfold py_truediv.
    destruct (Z.eqb_spec (Z.min u (Z.of_N (ba_len a))) 0) as [Hmin | Hmin].
    + (* unreachable: the guards above exclude a zero minimum *)
      exfalso.
      destruct (Z.eqb_spec u 0); destruct (Z.eqb_spec (Z.of_N (ba_len a)) 0);
        simpl in *; discriminate || lia.
    + simpl. unfold ret.
      destruct (Qlt_bool RELATIVE_DATA_LENGTH_CHANGE_TO_UPDATE _);
        [destruct (u - Z.of_N (ba_len a) >? 0)%Z |].
      all: eexists; split; [reflexivity | split; [auto | intros; discriminate]].
Qed.

Lemma get_memory_to_use_eq (free_memory : Z -> Z) (w : world) :
  get_memory_to_use free_memory w =
    inr (Qtrunc ((inject_Z (free_memory (w_clock w)) +
                  inject_Z (Z.of_N (ba_len (data (w_det w)))) / inject_Z 8) *
                 FREE_MEMORY_USAGE_RATE), w).
Proof. reflexivity. Qed.

Lemma update_array_cases (u : Z) (w : world) :
  ((u < 0)%Z /\ update_array u w = inl ValueError_msg) \/
  ((0 <= u)%Z /\
   update_array u w =
     inr (tt, mk_world (mk_detector (mk_bitarray (Z.to_N u) []) (force_reinit (w_det w)))
                       (w_stat w) (w_file w)
                       (w_allocs w ++ [(ba_len (data (w_det w)), u)]) (w_clock w))).
Proof.
  unfold update_array, bind, get_det, log_alloc, ba_new, put_det, raise. simpl.
  destruct (Z.ltb_spec u 0); [left | right]; split; auto.
Qed.

(** The statistics record after a checkpoint of the world [w]. *)
Lemma check_data_eq (start_at : Z) (w : world) :
  let stat1 := accumulate (w_stat w) (Z.of_N (ba_len (data (w_det w))))
                          (inject_Z (w_clock w - start_at)) in
  check_data start_at w =
    match ba_index_one (data (w_det w)) with
    | None => inr (tt, mk_world (w_det w) stat1 (stat1 :: w_file w)
                                (w_allocs w) (w_clock w))
    | Some _ => inr (tt, mk_world (mk_detector (data (w_det w)) true)
                                  (incr_SEUCases stat1)
                                  (incr_SEUCases stat1 :: w_file w)
                                  (w_allocs w) (w_clock w))
    end.
Proof.
  intros stat1. unfold check_data, bind, time_time, get_det, get_stat, put_stat,
    put_det, dump_statistics.
  destruct (ba_index_one (data (w_det w))); reflexivity.
Qed.

Lemma time_sleep_cases (d : Z) (w : world) :
  ((d < 0)%Z /\ time_sleep d w = inl ValueError_msg) \/
  ((0 <= d)%Z /\ time_sleep d w =
     inr (tt, mk_world (w_det w) (w_stat w) (w_file w) (w_allocs w) (w_clock w + d))).
Proof. unfold time_sleep. destruct (Z.ltb_spec d 0); [left | right]; auto. Qed.

(** A rule for the loop of [run_once]: an invariant [I] kept by the waits
    and by the memory checks that go on, and a postcondition [R] reached by
    a checkpoint, by a memory check that returns, and implied by [I]. *)
Lemma run_once_loop_hoare (free_memory : Z -> Z) (I R : world -> Prop)
    (E : py_error -> Prop) (start_at : Z) :
  (forall w d, I w -> (0 <= d)%Z ->
     I (mk_world (w_det w) (w_stat w) (w_file w) (w_allocs w) (w_clock w + d))) ->
  E ValueError_msg ->
  hoare I (memory_check free_memory start_at)
    (fun r w => match r with None => R w | Some _ => I w end) E ->
  hoare I (check_data start_at) (fun _ => R) E ->
  (forall w, I w -> R w) ->
  forall fuel lcm lcd,
    hoare I (run_once_loop free_memory fuel start_at lcm lcd) (fun _ => R) E.
Proof.
  intros Hsleep Hmsg Hmem Hchk HIR fuel.
  induction fuel as [| fuel IH]; intros lcm lcd w Hw.
  - exact (HIR w Hw).
  - cbn [run_once_loop]. unfold bind at 1 2. unfold time_time at 1 2.
    unfold bind at 1.
    match goal with |- context [time_sleep ?d w] => set (dd := d) end.
    destruct (time_sleep_cases dd w) as [[_ ->] | [Hd ->]]; [exact Hmsg |].
    set (w1 := mk_world _ _ _ _ _).
    assert (Hw1 : I w1) by (apply Hsleep; auto).
    clearbody w1. clear Hw.
    unfold bind at 1, time_time at 1.
    destruct (CHECK_MEMORY_EVERY <=? w_clock w1 - lcm)%Z.
    + unfold bind at 1. specialize (Hmem w1 Hw1).
      destruct (memory_check free_memory start_at w1) as [e | [[l |] w2]];
        [exact Hmem | | exact Hmem].
      unfold bind at 1, time_time at 1.
      destruct (CHECK_DATA_EVERY <=? w_clock w2 - lcd)%Z.
      * unfold bind. specialize (Hchk w2 Hmem).
        destruct (check_data start_at w2) as [e | [[] w3]]; exact Hchk.
      * apply IH. exact Hmem.
    + unfold bind at 1, time_time at 1.
      destruct (CHECK_DATA_EVERY <=? w_clock w1 - lcd)%Z.
      * unfold bind. specialize (Hchk w1 Hw1).
        destruct (check_data start_at w1) as [e | [[] w3]]; exact Hchk.
      * apply IH. exact Hw1.
Qed.

Lemma run_once_hoare (free_memory : Z -> Z) (I R : world -> Prop) (E : py_error -> Prop) :
  (forall w d, I w -> (0 <= d)%Z ->
     I (mk_world (w_det w) (w_stat w) (w_file w) (w_allocs w) (w_clock w + d))) ->
  E ValueError_msg ->
  (forall start_at, hoare I (memory_check free_memory start_at)
     (fun r w => match r with None => R w | Some _ => I w end) E) ->
  (forall start_at, hoare I (check_data start_at) (fun _ => R) E) ->
  (forall w, I w -> R w) ->
  forall fuel, hoare I (run_once free_memory fuel) (fun _ => R) E.
Proof.
  intros Hsleep Hmsg Hmem Hchk HIR fuel w Hw. unfold run_once, bind, time_time.
  exact (run_once_loop_hoare free_memory I R E (w_clock w) Hsleep Hmsg
           (Hmem _) (Hchk _) HIR fuel _ _ w Hw).
Qed.

Lemma SEUCases_accumulate (s : TStat Q) (L : Z) (p : Q) :
  SEUCases (accumulate s L p) = SEUCases s.
Proof. reflexivity. Qed.

(** The memory check raises no [ValueError(should)]. *)
Lemma memory_check_no_value_error (free_memory : Z -> Z) (start_at : Z) :
  hoare (fun _ => True) (memory_check free_memory start_at) (fun _ _ => True)
    (fun e => forall z, e <> ValueError_int z).
Proof.
  intros w _. unfold memory_check, bind at 1. rewrite get_memory_to_use_eq.
  unfold bind at 1.
  match goal with |- context [should_update_array ?u w] =>
    destruct (should_update_array_cases u w) as [v [-> [Hr _]]] end.
  destruct Hr as [-> | [-> | ->]]; cbn -[update_array check_data].
  - unfold time_time, bind, ret. exact I.
  - unfold bind. match goal with |- context [update_array ?u ?w'] =>
      destruct (update_array_cases u w') as [[_ ->] | [_ ->]] end;
      [intros z; discriminate | exact I].
  - unfold bind at 1. rewrite check_data_eq.
    destruct (ba_index_one _); unfold bind;
      match goal with |- context [update_array ?u ?w'] =>
        destruct (update_array_cases u w') as [[_ ->] | [_ ->]] end;
      solve [intros z; discriminate | exact I].
Qed.

(** Whatever the memory check decides, it keeps [force_reinit] false and
    [SEUCases] unchanged, unless it checkpoints an upset, which sets the
    flag and adds 1 to [SEUCases]. *)
Lemma memory_check_force_reinit (free_memory : Z -> Z) (start_at : Z) (s0 : Z) :
  hoare (fun w => force_reinit (w_det w) = false /\ SEUCases (w_stat w) = s0)
    (memory_check free_memory start_at)
    (fun r w => match r with
                | None => force_reinit (w_det w) = true ->
                          SEUCases (w_stat w) = (s0 + 1)%Z
                | Some _ => force_reinit (w_det w) = false /\ SEUCases (w_stat w) = s0
                end)
    (fun _ => True).
Proof.
  intros w [Hf Hs]. unfold memory_check, bind at 1. rewrite get_memory_to_use_eq.
  unfold bind at 1.
  match goal with |- context [should_update_array ?u w] =>
    destruct (should_update_array_cases u w) as [v [-> [Hr _]]] end.
  destruct Hr as [-> | [-> | ->]]; cbn -[update_array check_data].
  - unfold time_time, bind, ret. simpl. auto.
  - unfold bind. match goal with |- context [update_array ?u ?w'] =>
      destruct (update_array_cases u w') as [[_ ->] | [_ ->]] end;
      [exact I | simpl; intros; discriminate].
  - unfold bind at 1. rewrite check_data_eq. simpl.
    destruct (ba_index_one (data (w_det w))); unfold bind;
      match goal with |- context [update_array ?u ?w'] =>
        destruct (update_array_cases u w') as [[_ ->] | [_ ->]] end;
      simpl; solve [exact I | intros; rewrite SEUCases_accumulate, Hs; reflexivity
                   | intros; congruence].
Qed.


(** C9: [should_update_array] never raises (no [ZeroDivisionError]) and
    returns one of NO_UPDATE, UPDATE_NO_CHECK, UPDATE_WITH_CHECK; the
    division computing [rel] is reached, with [force_reinit] false and a
    desired length [>= 0], only past the three guards, where both lengths
    are positive; hence [run_once] never raises [ValueError(should)]. *)
Theorem should_update_array_three_values (use_bits : Z) (w : world) :
  (exists v w', should_update_array use_bits w = inr (v, w') /\
                (v = NO_UPDATE \/ v = UPDATE_NO_CHECK \/ v = UPDATE_WITH_CHECK)) /\
  (force_reinit (w_det w) = false -> (0 <= use_bits)%Z ->
     let len := Z.of_N (ba_len (data (w_det w))) in
     negb (use_bits =? 0)%Z && (len =? 0)%Z = false ->
     (use_bits =? 0)%Z && negb (len =? 0)%Z = false ->
     (use_bits =? 0)%Z && (len =? 0)%Z = false ->
     (0 < use_bits)%Z /\ (0 < len)%Z /\ (0 < Z.min use_bits len)%Z) /\
  (forall (free_memory : Z -> Z) (fuel : nat) (z : Z),
     run_once free_memory fuel w <> inl (ValueError_int z)).
Proof.
  split; [| split].
  - destruct (should_update_array_cases use_bits w) as [v [H [Hr _]]].
    exists v. eexists. split; [exact H | exact Hr].
  - intros _ Hu len H1 H2 H3.
    destruct (Z.eqb_spec use_bits 0); destruct (Z.eqb_spec len 0);
      simpl in *; try discriminate; lia.
  - intros free_memory fuel z Hz.
    pose proof (run_once_hoare free_memory (fun _ => True) (fun _ => True)
                  (fun e => forall z, e <> ValueError_int z)) as H.
    specialize (H (fun _ _ _ _ => I) (fun z' => ltac:(discriminate))).
    assert (Hm : forall s, hoare (fun _ => True) (memory_check free_memory s)
                              (fun r w => match r with None => True | Some _ => True end)
                              (fun e => forall z, e <> ValueError_int z)).
    { intros s. eapply hoare_post; [| apply memory_check_no_value_error].
      intros [?|] _ _; exact I. }
    specialize (H Hm).
    assert (Hc : forall s, hoare (fun _ => True) (check_data s) (fun _ _ => True)
                              (fun e => forall z, e <> ValueError_int z)).
    { intros s w' _. rewrite check_data_eq. destruct (ba_index_one _); exact I. }
    specialize (H Hc (fun _ _ => I) fuel w I). rewrite Hz in H.
    exact (H z eq_refl).
Qed.


(** C2: a checkpoint whose scan finds a set bit adds exactly 1 to
    [SEUCases] and sets [force_reinit]; the next sizing evaluation then
    returns UPDATE_NO_CHECK whatever the desired size, and clears the flag,
    keeping the arena; and a round of [run_once] started with the flag clear
    ends with it set only if it detected an upset, adding 1 to [SEUCases]. *)
Theorem upset_forces_reinit :
  (forall (start_at : Z) (w : world),
     ba_index_one (data (w_det w)) <> None ->
     exists w', check_data start_at w = inr (tt, w') /\
                SEUCases (w_stat w') = (SEUCases (w_stat w) + 1)%Z /\
                force_reinit (w_det w') = true) /\
  (forall (use_bits : Z) (w : world),
     force_reinit (w_det w) = true ->
     exists w', should_update_array use_bits w = inr (UPDATE_NO_CHECK, w') /\
                force_reinit (w_det w') = false /\ data (w_det w') = data (w_det w)) /\
  (forall (free_memory : Z -> Z) (fuel : nat) (w w' : world) (b : bool),
     force_reinit (w_det w) = false ->
     run_once free_memory fuel w = inr (b, w') ->
     force_reinit (w_det w') = true ->
     SEUCases (w_stat w') = (SEUCases (w_stat w) + 1)%Z).
Proof.
  split; [| split].
  - intros start_at w Hone. rewrite check_data_eq.
    destruct (ba_index_one (data (w_det w))) as [i |]; [| contradiction].
    eexists. split; [reflexivity | split; reflexivity].
  - intros use_bits w Hf.
    destruct (should_update_array_cases use_bits w) as [v [H [_ Hv]]].
    rewrite (Hv Hf) in H. eexists. split; [exact H | split; reflexivity].
  - intros free_memory fuel w w' b Hf Hrun.
    set (s0 := SEUCases (w_stat w)).
    pose proof (run_once_hoare free_memory
                  (fun w => force_reinit (w_det w) = false /\ SEUCases (w_stat w) = s0)
                  (fun w => force_reinit (w_det w) = true ->
                            SEUCases (w_stat w) = (s0 + 1)%Z)
                  (fun _ => True)) as H.
    specialize (H (fun _ _ Hw _ => Hw) I (fun s => memory_check_force_reinit free_memory s s0)).
    assert (Hc : forall s, hoare
                  (fun w => force_reinit (w_det w) = false /\ SEUCases (w_stat w) = s0)
                  (check_data s)
                  (fun _ w => force_reinit (w_det w) = true ->
                              SEUCases (w_stat w) = (s0 + 1)%Z)
                  (fun _ => True)).
    { intros s w1 [Hf1 Hs1]. rewrite check_data_eq.
      destruct (ba_index_one _); simpl.
      - intros _. rewrite Hs1. reflexivity.
      - congruence. }
    specialize (H Hc (fun w1 Hw1 Ht => ltac:(destruct Hw1; congruence)) fuel w
                  (conj Hf eq_refl)).
    rewrite Hrun in H. exact H.
Qed.

(** ** The detector under a constant 1 GB free-memory probe *)

Lemma settled_memory_check (start_at : Z) (w : world) :
  w_det w = settled_det ->
  memory_check probe_1GB start_at w = inr (Some (w_clock w), w).
Proof.
  destruct w as [d s fl al c]. simpl. intros ->. reflexivity.
Qed.

(** With the settled arena, each wait of [run_once] lasts one second, every
    memory check says NO_UPDATE, and the loop ends with the checkpoint due
    ten seconds after the start of the round. *)
Lemma settled_loop (m : nat) :
  forall (fuel : nat) (start_at : Z) (w : world),
  w_det w = settled_det -> (1 <= m <= 10)%nat -> (m <= fuel)%nat ->
  w_clock w = (start_at + 10 - Z.of_nat m)%Z ->
  let s' := accumulate (w_stat w) 13875000000 (inject_Z 10) in
  run_once_loop probe_1GB fuel start_at (w_clock w) start_at w =
    inr (true, mk_world settled_det s' (s' :: w_file w) (w_allocs w) (start_at + 10)).
Proof.
  induction m as [| m IH]; intros fuel start_at w Hd Hm Hf Hc s'; [lia |].
  destruct fuel as [| fuel]; [lia |].
  cbn [run_once_loop]. unfold bind at 1 2. unfold time_time at 1 2.
  unfold bind at 1.
  match goal with |- context [time_sleep ?d w] => set (dd := d) end.
  assert (Hdd : dd = 1%Z)
    by (subst dd; unfold CHECK_MEMORY_EVERY, CHECK_DATA_EVERY; lia).
  destruct (time_sleep_cases dd w) as [[Hneg _] | [_ ->]]; [lia |].
  rewrite Hdd.
  set (w1 := mk_world (w_det w) (w_stat w) (w_file w) (w_allocs w) (w_clock w + 1)).
  unfold bind at 1, time_time at 1.
  replace (CHECK_MEMORY_EVERY <=? w_clock w1 - w_clock w)%Z with true
    by (symmetry; apply Z.leb_le; simpl; unfold CHECK_MEMORY_EVERY; lia).
  unfold bind at 1. rewrite settled_memory_check by exact Hd.
  unfold bind at 1, time_time at 1.
  destruct (Z.leb_spec CHECK_DATA_EVERY (w_clock w1 - start_at)) as [Hdue | Hnot].
  - unfold bind. rewrite check_data_eq. simpl in Hd |- *. rewrite Hd. simpl.
    assert (Hm1 : m = O) by (simpl in Hdue; unfold CHECK_DATA_EVERY in Hdue; lia).
    subst m.
    replace (w_clock w + 1 - start_at)%Z with 10%Z by lia.
    replace (w_clock w + 1)%Z with (start_at + 10)%Z by lia.
    reflexivity.
  - assert (Hm1 : (1 <= m)%nat) by (simpl in Hnot; unfold CHECK_DATA_EVERY in Hnot; lia).
    exact (IH fuel start_at w1 Hd ltac:(lia) ltac:(lia) ltac:(simpl; lia)).
Qed.

Lemma settled_round (fuel : nat) (w : world) :
  (10 <= fuel)%nat -> w_det w = settled_det ->
  let s' := accumulate (w_stat w) 13875000000 (inject_Z 10) in
  run_once probe_1GB fuel w =
    inr (true, mk_world settled_det s' (s' :: w_file w) (w_allocs w) (w_clock w + 10)).
Proof.
  intros Hf Hd s'. unfold run_once, bind at 1, time_time.
  apply (settled_loop 10 fuel (w_clock w) w Hd); lia.
Qed.

Lemma accumulate_grows (s : TStat Q) (L : Z) (p : Q) :
  0 < p -> (0 < L)%Z ->
  runSeconds s < runSeconds (accumulate s L p) /\
  bitSeconds s < bitSeconds (accumulate s L p).
Proof.
  intros Hp HL. simpl.
  assert (HLq : 0 < inject_Z L) by (unfold Qlt; simpl; lia).
  pose proof (Qmult_lt_0_compat _ _ HLq Hp). split; lra.
Qed.

Lemma fresh_1GB_prefix (f : nat) :
  exists wA w1 w2,
    run_init probe_1GB (fresh_world 0) = inr (tt, wA) /\
    run_once probe_1GB (S f) wA = inr (true, w1) /\
    run_once probe_1GB (S f) w1 = inr (true, w2) /\
    w_allocs wA = firstn 1 allocs_1GB /\ w_file wA = [] /\
    SEUCases (w_stat wA) = 0%Z /\
    w_allocs w1 = firstn 2 allocs_1GB /\ length (w_file w1) = 1%nat /\
    strictly_growing (w_file w1 ++ [zero_stat]) /\
    Forall (fun s => SEUCases s = 0%Z) (w_file w1) /\ SEUCases (w_stat w1) = 0%Z /\
    w_allocs w2 = allocs_1GB /\ w_det w2 = settled_det /\
    (exists rest, w_file w2 = w_stat w2 :: rest) /\ length (w_file w2) = 2%nat /\
    strictly_growing (w_file w2 ++ [zero_stat]) /\
    Forall (fun s => SEUCases s = 0%Z) (w_file w2).
Proof.
  do 3 eexists.
  split; [vm_compute; reflexivity |].
  split; [vm_compute; reflexivity |].
  split; [vm_compute; reflexivity |].
  vm_compute.
  repeat split; try reflexivity; try (eexists; reflexivity);
    repeat constructor; unfold Qlt; simpl; lia.
Qed.

Lemma settled_rounds (k : nat) :
  forall (fuel : nat) (w : world),
  (10 <= fuel)%nat -> w_det w = settled_det ->
  (exists rest, w_file w = w_stat w :: rest) ->
  strictly_growing (w_file w ++ [zero_stat]) ->
  Forall (fun s => SEUCases s = 0%Z) (w_file w) ->
  exists w', run_loop probe_1GB fuel k w = inr (tt, w') /\
             w_det w' = settled_det /\ w_allocs w' = w_allocs w /\
             (exists rest, w_file w' = w_stat w' :: rest) /\
             length (w_file w') = (k + length (w_file w))%nat /\
             strictly_growing (w_file w' ++ [zero_stat]) /\
             Forall (fun s => SEUCases s = 0%Z) (w_file w').
Proof.
  induction k as [| k IH]; intros fuel w Hf Hd [rest Hfile] Hgrow Hseu.
  - exists w. repeat split; auto. exists rest. exact Hfile.
  - cbn [run_loop]. unfold bind. rewrite (settled_round fuel w Hf Hd).
    set (s' := accumulate (w_stat w) 13875000000 (inject_Z 10)).
    assert (Hs0 : SEUCases (w_stat w) = 0%Z)
      by (rewrite Hfile in Hseu; inversion Hseu; auto).
    destruct (IH fuel (mk_world settled_det s' (s' :: w_file w) (w_allocs w)
                                (w_clock w + 10)) Hf eq_refl)
      as (w' & Hrun & Hd' & Hal & Hfile' & Hlen & Hgrow' & Hseu').
    + exists (w_file w). reflexivity.
    + simpl. rewrite Hfile in Hgrow |- *. simpl.
      destruct (accumulate_grows (w_stat w) 13875000000 (inject_Z 10))
        as [Hr Hb]; [reflexivity | lia |].
      split; [exact Hr | split; [exact Hb | exact Hgrow]].
    + constructor; [simpl; exact Hs0 | exact Hseu].
    + exists w'. rewrite Hrun. repeat split; auto.
      simpl in Hlen. lia.
Qed.


(** C4 (as stated, false): from a fresh start with no statistics file and a
    free-memory probe reporting 1 GB on every query, the detector does not
    make a single allocation: after two rounds of [run_once] it has logged
    three reallocations, because [get_memory_to_use] counts the bytes of
    the arena itself as available. *)
Lemma fresh_1GB_single_allocation_counterexample :
  ~ (forall (n : nat) (w : world),
       run probe_1GB 10 n (fresh_world 0) = inr (tt, w) ->
       length (w_allocs w) = 1%nat).
Proof.
  intros H.
  specialize (H 2%nat).
  destruct (run probe_1GB 10 2 (fresh_world 0)) as [e | [[] w]] eqn:Hrun;
    [vm_compute in Hrun; discriminate Hrun |].
  specialize (H w eq_refl).
  vm_compute in Hrun. injection Hrun as <-. vm_compute in H. discriminate H.
Qed.

(** C4 (amended): from a fresh start with no statistics file and a
    free-memory probe reporting 1 GB on every query, for any number [n] of
    rounds of [run_once] (each given at least the ten iterations a round
    needs), the detector first allocates 6e9 bits (0.75 GB), grows twice,
    each time after a checkpoint, to 1.05e10 and then 1.3875e10 bits, and
    then keeps that arena; each round ends in exactly one checkpoint,
    [SEUCases] stays 0 across the all-zero scans, and [runSeconds] and
    [bitSeconds] strictly increase from the loaded zero record at every
    checkpoint written to the file. *)
Theorem fresh_1GB_allocations_and_growth (fuel n : nat) :
  (10 <= fuel)%nat ->
  exists w, run probe_1GB fuel n (fresh_world 0) = inr (tt, w) /\
            w_allocs w = firstn (S (Nat.min n 2)) allocs_1GB /\
            length (w_file w) = n /\
            SEUCases (w_stat w) = 0%Z /\
            Forall (fun s => SEUCases s = 0%Z) (w_file w) /\
            strictly_growing (w_file w ++ [zero_stat]).
Proof.
  intros Hf. destruct fuel as [| f]; [lia |].
  destruct (fresh_1GB_prefix f) as (wA & w1 & w2 & HA & H1 & H2 & HalA & HfA & HsA &
    Hal1 & Hlen1 & Hgr1 & Hseu1 & Hs1 & Hal2 & Hd2 & Hfile2 & Hlen2 & Hgr2 & Hseu2).
  unfold run, bind at 1. rewrite HA.
  destruct n as [| [| k]].
  - exists wA. simpl. rewrite HfA. repeat split; auto.
  - exists w1. cbn [run_loop]. unfold bind. rewrite H1. simpl.
    repeat split; auto.
  - destruct (settled_rounds k (S f) w2 Hf Hd2 Hfile2 Hgr2 Hseu2)
      as (w' & Hrun & _ & Hal & [rest Hfile'] & Hlen & Hgr & Hseu).
    exists w'. cbn [run_loop]. unfold bind. rewrite H1, H2, Hrun.
    split; [reflexivity |].
    split; [rewrite Hal, Hal2; destruct k; reflexivity |].
    split; [rewrite Hlen, Hlen2; lia |].
    split; [rewrite Hfile' in Hseu; inversion Hseu; auto |].
    split; assumption.
Qed.

Lemma fresh_1GB_allocations_and_growth_witness :
  exists w, run probe_1GB 10 5 (fresh_world 0) = inr (tt, w) /\
            w_allocs w = firstn (S (Nat.min 5 2)) allocs_1GB /\
            length (w_file w) = 5%nat /\
            SEUCases (w_stat w) = 0%Z /\
            Forall (fun s => SEUCases s = 0%Z) (w_file w) /\
            strictly_growing (w_file w ++ [zero_stat]).
Proof. apply fresh_1GB_allocations_and_growth. lia. Defined.

(** ** Further properties of the detector *)

Lemma check_data_world (start_at : Z) (w : world) :
  check_data start_at w = inr (tt, checkpoint_world start_at w).
Proof.
  rewrite check_data_eq. unfold checkpoint_world.
  destruct (ba_index_one (data (w_det w))); reflexivity.
Qed.

Lemma update_array_world (u : Z) (w : world) :
  (0 <= u)%Z -> update_array u w = inr (tt, realloc_world u w).
Proof.
  intros Hu. destruct (update_array_cases u w) as [[Hn _] | [_ ->]]; [lia | reflexivity].
Qed.

Lemma Qtrunc_nonneg (q : Q) : 0 <= q -> (0 <= Qtrunc q)%Z.
Proof.
  destruct q as [n d]. unfold Qle, Qtrunc. simpl. intros H.
  apply Z.quot_pos; lia.
Qed.

Lemma Qtrunc_floor (q : Q) : 0 <= q -> Qtrunc q = Qfloor q.
Proof.
  destruct q as [n d]. unfold Qle, Qtrunc. simpl. intros H.
  apply Z.quot_div_nonneg; lia.
Qed.

Lemma memory_target_nonneg (free_memory : Z -> Z) (w : world) :
  (0 <= free_memory (w_clock w))%Z -> (0 <= memory_target free_memory w)%Z.
Proof.
  intros Hf. unfold memory_target.
  assert ((0 <= Qtrunc ((inject_Z (free_memory (w_clock w)) +
            inject_Z (Z.of_N (ba_len (data (w_det w)))) / inject_Z 8) *
           FREE_MEMORY_USAGE_RATE))%Z); [| lia].
  apply Qtrunc_nonneg.
  assert (H1 : 0 <= inject_Z (free_memory (w_clock w))) by (unfold Qle; simpl; lia).
  assert (H2 : 0 <= inject_Z (Z.of_N (ba_len (data (w_det w))))) by (unfold Qle; simpl; lia).
  unfold FREE_MEMORY_USAGE_RATE.
  apply Qmult_le_0_compat; [| unfold Qle; simpl; lia].
  assert (0 <= inject_Z (Z.of_N (ba_len (data (w_det w)))) / inject_Z 8).
  { apply Qle_shift_div_l; [reflexivity | lra]. }
  lra.
Qed.

(** What a memory check does, by the decision of [should_update_array]. *)
Lemma memory_check_by_decision (free_memory : Z -> Z) (start_at : Z) (w : world) :
  (0 <= free_memory (w_clock w))%Z ->
  let u := memory_target free_memory w in
  let v := result_of (should_update_array u) w in
  (v = Some NO_UPDATE /\ force_reinit (w_det w) = false /\
   memory_check free_memory start_at w = inr (Some (w_clock w), clear_force w)) \/
  (v = Some UPDATE_NO_CHECK /\
   memory_check free_memory start_at w = inr (None, realloc_world u (clear_force w))) \/
  (v = Some UPDATE_WITH_CHECK /\ force_reinit (w_det w) = false /\
   memory_check free_memory start_at w =
     inr (None, realloc_world u (checkpoint_world start_at (clear_force w)))).
Proof.
  intros Hf u v. subst v.
  assert (Hu : (0 <= u)%Z) by (apply memory_target_nonneg; exact Hf).
  destruct (should_update_array_cases u w) as [d [Hs [Hr Hforce]]].
  fold (clear_force w) in Hs.
  assert (Hno : d <> UPDATE_NO_CHECK -> force_reinit (w_det w) = false).
  { intros Hd. destruct (force_reinit (w_det w)); [exfalso; auto | reflexivity]. }
  unfold result_of. rewrite Hs.
  destruct Hr as [-> | [-> | ->]]; [left | right; left | right; right];
    (split; [reflexivity |]);
    try (split; [apply Hno; discriminate |]);
    unfold memory_check, bind; rewrite get_memory_to_use_eq; cbv beta iota zeta;
    fold (memory_target free_memory w); fold u; rewrite Hs; cbn -[update_array check_data].
  - reflexivity.
  - rewrite update_array_world by exact Hu. reflexivity.
  - rewrite check_data_world, update_array_world by exact Hu. reflexivity.
Qed.

Lemma tick_tick (a b : Z) (w : world) : tick a (tick b w) = tick (b + a) w.
Proof. unfold tick. simpl. f_equal. lia. Qed.

Lemma clear_force_id (w : world) :
  force_reinit (w_det w) = false -> clear_force w = w.
Proof. destruct w as [[a f] s fl al c]. simpl. intros ->. reflexivity. Qed.

Lemma time_sleep_tick (d : Z) (w : world) :
  (0 <= d)%Z -> time_sleep d w = inr (tt, tick d w).
Proof.
  intros Hd. destruct (time_sleep_cases d w) as [[Hn _] | [_ ->]]; [lia | reflexivity].
Qed.

(** The loop of [run_once] entered with [k+1] seconds left before the data
    check is due, right after a memory check. *)
Lemma round_loop (free_memory : Z -> Z) (start_at : Z) :
  (forall t, (0 <= free_memory t)%Z) ->
  forall (k : nat) (fuel : nat) (w : world),
  (k < fuel)%nat -> (k <= 9)%nat -> w_clock w = (start_at + 9 - Z.of_nat k)%Z ->
  exists w', run_once_loop free_memory fuel start_at (w_clock w) start_at w = inr (true, w') /\
             round_outcome free_memory start_at (Z.of_nat (S k)) w w'.
Proof.
  intros Hfree k. induction k as [| k IH]; intros fuel w Hk H9 Hc;
    (destruct fuel as [| fuel]; [lia |]);
    cbn [run_once_loop]; unfold bind at 1 2; unfold time_time at 1 2;
    (match goal with |- context [time_sleep ?d] =>
       replace d with 1%Z by (unfold CHECK_MEMORY_EVERY, CHECK_DATA_EVERY; lia) end);
    unfold bind at 1; rewrite time_sleep_tick by lia;
    unfold bind at 1, time_time at 1; cbn [w_clock tick];
    (replace (CHECK_MEMORY_EVERY <=? w_clock w + 1 - w_clock w)%Z with true
       by (symmetry; apply Z.leb_le; unfold CHECK_MEMORY_EVERY; lia));
    unfold bind at 1;
    pose proof (memory_check_by_decision free_memory start_at (tick 1 w) (Hfree _)) as HD;
    cbv zeta in HD;
    destruct HD as [[Hv [Hfo Hmc]] | [[Hv Hmc] | [Hv [Hfo Hmc]]]];
    rewrite Hmc; cbn [w_clock tick clear_force];
    try (rewrite (clear_force_id (tick 1 w) Hfo));
    try (cbn [w_det tick] in Hfo).
  - (* NO_UPDATE with the data check due *)
    unfold bind at 1, time_time at 1. cbn [w_clock tick].
    replace (CHECK_DATA_EVERY <=? w_clock w + 1 - start_at)%Z with true
      by (symmetry; apply Z.leb_le; unfold CHECK_DATA_EVERY; lia).
    unfold bind. rewrite check_data_world. eexists. split; [reflexivity |].
    exists 1%Z. split; [lia |]. split; [congruence |]. cbv zeta.
    right; right. split; [reflexivity |]. split; [exact Hv |]. split; [exact Hfo | reflexivity].
  - eexists. split; [reflexivity |]. exists 1%Z. split; [lia |]. split; [auto |].
    cbv zeta. left. split; [exact Hv | reflexivity].
  - eexists. split; [reflexivity |]. exists 1%Z. split; [lia |]. split; [congruence |].
    cbv zeta. right; left. split; [exact Hv |]. split; [exact Hfo | reflexivity].
  - (* NO_UPDATE, the loop goes on *)
    unfold bind at 1, time_time at 1. cbn [w_clock tick].
    replace (CHECK_DATA_EVERY <=? w_clock w + 1 - start_at)%Z with false
      by (symmetry; apply Z.leb_gt; unfold CHECK_DATA_EVERY; lia).
    change (w_clock w + 1)%Z with (w_clock (tick 1 w)).
    destruct (IH fuel (tick 1 w)) as [w' [Hrun [j [Hj [_ Hout]]]]];
      [lia | lia | simpl; lia |].
    exists w'. split; [exact Hrun |].
    exists (1 + j)%Z. split; [lia |]. split; [congruence |].
    cbv zeta in Hout |- *. rewrite tick_tick in Hout.
    destruct Hout as [Hout | [[Hr [_ Hw']] | [Hjm [Hr [_ Hw']]]]].
    + left. exact Hout.
    + right; left. split; [exact Hr |]. split; [exact Hfo | exact Hw'].
    + right; right. split; [lia |]. split; [exact Hr |]. split; [exact Hfo | exact Hw'].
  - eexists. split; [reflexivity |]. exists 1%Z. split; [lia |]. split; [auto |].
    cbv zeta. left. split; [exact Hv | reflexivity].
  - eexists. split; [reflexivity |]. exists 1%Z. split; [lia |]. split; [congruence |].
    cbv zeta. right; left. split; [exact Hv |]. split; [exact Hfo | reflexivity].
Qed.

Lemma run_once_round (free_memory : Z -> Z) (fuel : nat) (w : world) :
  (forall t, (0 <= free_memory t)%Z) -> (10 <= fuel)%nat ->
  exists w', run_once free_memory fuel w = inr (true, w') /\
             round_outcome free_memory (w_clock w) 10 w w'.
Proof.
  intros Hf Hfuel. unfold run_once, bind, time_time.
  destruct (round_loop free_memory (w_clock w) Hf 9 fuel w) as [w' [H1 H2]];
    [lia | lia | lia |].
  exists w'. split; [exact H1 | exact H2].
Qed.

Lemma run_loop_rounds (free_memory : Z -> Z) (fuel : nat) (n : nat) :
  (forall t, (0 <= free_memory t)%Z) -> (10 <= fuel)%nat ->
  forall w, exists w', run_loop free_memory fuel n w = inr (tt, w') /\
                       rounds free_memory n w w'.
Proof.
  intros Hf Hfuel. induction n as [| n IH]; intros w.
  - exists w. split; reflexivity.
  - cbn [run_loop]. unfold bind at 1.
    destruct (run_once_round free_memory fuel w Hf Hfuel) as [w1 [-> Ho]].
    destruct (IH w1) as [w' [Hr Hrs]].
    exists w'. split; [exact Hr |]. exists w1. split; [exact Ho | exact Hrs].
Qed.

Lemma load_statistics_eq (w : world) :
  load_statistics w = inr (stat_on_disk w, w).
Proof. unfold load_statistics, stat_on_disk. destruct (w_file w); reflexivity. Qed.

Lemma run_init_eq (free_memory : Z -> Z) (w : world) :
  (0 <= free_memory (w_clock w))%Z ->
  run_init free_memory w =
    inr (tt, realloc_world (memory_target free_memory w)
               (mk_world (w_det w) (stat_on_disk w) (w_file w) (w_allocs w) (w_clock w))).
Proof.
  intros Hf. unfold run_init, bind at 1. rewrite load_statistics_eq.
  unfold bind at 1, put_stat at 1. unfold bind at 1.
  rewrite get_memory_to_use_eq. cbv beta iota zeta. cbn [w_clock w_det].
  fold (memory_target free_memory w).
  set (w1 := mk_world (w_det w) (stat_on_disk w) (w_file w) (w_allocs w) (w_clock w)).
  change (memory_target free_memory w) with (memory_target free_memory w1).
  apply update_array_world. apply memory_target_nonneg. exact Hf.
Qed.

Lemma checkpoint_world_stat (start_at : Z) (w : world) :
  w_stat (checkpoint_world start_at w) =
    checkpoint_stat (w_stat w) (data (w_det w)) (w_clock w - start_at).
Proof.
  unfold checkpoint_world, checkpoint_stat. destruct (ba_index_one (data (w_det w))); reflexivity.
Qed.

(** The effect of one round on the world, field by field. *)
Lemma round_summary (free_memory : Z -> Z) (w w' : world) :
  (forall t, (0 <= free_memory t)%Z) ->
  round_outcome free_memory (w_clock w) 10 w w' ->
  exists j, (1 <= j <= 10)%Z /\ w_clock w' = (w_clock w + j)%Z /\
    (force_reinit (w_det w) = true -> j = 1%Z) /\
    let L := ba_len (data (w_det w)) in
    let cs := checkpoint_stat (w_stat w) (data (w_det w)) j in
    (w_stat w' = w_stat w /\ w_file w' = w_file w /\
     exists u, (0 <= u)%Z /\ w_allocs w' = w_allocs w ++ [(L, u)] /\
               w_det w' = mk_detector (mk_bitarray (Z.to_N u) []) false) \/
    (force_reinit (w_det w) = false /\ w_stat w' = cs /\ w_file w' = cs :: w_file w /\
     exists u, (0 <= u)%Z /\ w_allocs w' = w_allocs w ++ [(L, u)] /\
               data (w_det w') = mk_bitarray (Z.to_N u) []) \/
    (j = 10%Z /\ force_reinit (w_det w) = false /\ w_stat w' = cs /\
     w_file w' = cs :: w_file w /\ w_allocs w' = w_allocs w /\
     data (w_det w') = data (w_det w)).
Proof.
  intros Hf [j [Hj [Hfj Hcases]]]. cbv zeta in Hcases.
  assert (Hu : (0 <= memory_target free_memory (tick j w))%Z)
    by (apply memory_target_nonneg; apply Hf).
  assert (Hp : (w_clock (tick j w) - w_clock w)%Z = j) by (simpl; lia).
  exists j. split; [exact Hj |].
  destruct Hcases as [[_ ->] | [[_ [Hfo ->]] | [Hjm [_ [Hfo ->]]]]].
  - split; [reflexivity |]. split; [exact Hfj |]. cbv zeta. left.
    split; [reflexivity |]. split; [reflexivity |].
    exists (memory_target free_memory (tick j w)). split; [exact Hu |].
    split; reflexivity.
  - split; [unfold realloc_world, checkpoint_world;
            destruct (ba_index_one _); reflexivity |].
    split; [exact Hfj |]. cbv zeta. right; left.
    split; [exact Hfo |].
    assert (Hs : w_stat (realloc_world (memory_target free_memory (tick j w))
                           (checkpoint_world (w_clock w) (tick j w))) =
                 checkpoint_stat (w_stat w) (data (w_det w)) j).
    { unfold realloc_world. cbn [w_stat]. rewrite checkpoint_world_stat, Hp. reflexivity. }
    split; [exact Hs |]. split.
    + unfold realloc_world, checkpoint_world, checkpoint_stat.
      cbn [w_file w_det data tick w_stat w_clock].
      replace (w_clock w + j - w_clock w)%Z with j by lia.
      destruct (ba_index_one (data (w_det w))); reflexivity.
    + exists (memory_target free_memory (tick j w)). split; [exact Hu |].
      unfold realloc_world, checkpoint_world.
      destruct (ba_index_one (data (w_det (tick j w)))); split; reflexivity.
  - split; [unfold checkpoint_world; destruct (ba_index_one _); reflexivity |].
    split; [exact Hfj |]. cbv zeta. right; right.
    split; [exact Hjm |]. split; [exact Hfo |].
    assert (Hs : w_stat (checkpoint_world (w_clock w) (tick j w)) =
                 checkpoint_stat (w_stat w) (data (w_det w)) j).
    { rewrite checkpoint_world_stat, Hp. reflexivity. }
    split; [exact Hs |]. split.
    + unfold checkpoint_world, checkpoint_stat.
      cbn [w_file w_det data tick w_stat w_clock].
      replace (w_clock w + j - w_clock w)%Z with j by lia.
      destruct (ba_index_one (data (w_det w))); reflexivity.
    + unfold checkpoint_world. destruct (ba_index_one (data (w_det (tick j w))));
        split; reflexivity.
Qed.

Lemma checkpoint_stat_SEUCases (s : TStat Q) (a : bitarray) (p : Z) :
  SEUCases (checkpoint_stat s a p) =
    (SEUCases s + match ba_index_one a with None => 0 | Some _ => 1 end)%Z.
Proof. unfold checkpoint_stat. destruct (ba_index_one a); simpl; lia. Qed.

Lemma checkpoint_stat_consistent (s : TStat Q) (a : bitarray) (p : Z) :
  stat_consistent (checkpoint_stat s a p).
Proof. unfold checkpoint_stat. destruct (ba_index_one a); split; reflexivity. Qed.

Lemma checkpoint_stat_runSeconds (s : TStat Q) (a : bitarray) (p : Z) :
  runSeconds (checkpoint_stat s a p) = runSeconds s + inject_Z p.
Proof. unfold checkpoint_stat. destruct (ba_index_one a); reflexivity. Qed.

Lemma checkpoint_stat_bitSeconds (s : TStat Q) (a : bitarray) (p : Z) :
  bitSeconds (checkpoint_stat s a p) =
    bitSeconds s + inject_Z (Z.of_N (ba_len a)) * inject_Z p.
Proof. unfold checkpoint_stat. destruct (ba_index_one a); reflexivity. Qed.

Lemma cons_neq {A} (x : A) (l : list A) : x :: l <> l.
Proof. intros H. apply (f_equal (@length A)) in H. simpl in H. lia. Qed.

Lemma app_one_neq {A} (l : list A) (x : A) : l ++ [x] <> l.
Proof. intros H. apply (f_equal (@length A)) in H. rewrite length_app in H. simpl in H. lia. Qed.

Lemma chain_ok_app (c : N) (l1 l2 : list (N * Z)) :
  chain_ok c (l1 ++ l2) = match chain_ok c l1 with
                          | Some c' => chain_ok c' l2
                          | None => None
                          end.
Proof.
  revert c. induction l1 as [| [f t] l1 IH]; intros c; [reflexivity |].
  simpl. destruct (N.eqb f c && (0 <=? t)%Z)%bool; [apply IH | reflexivity].
Qed.

Lemma chain_ok_one (c : N) (u : Z) : (0 <= u)%Z -> chain_ok c [(c, u)] = Some (Z.to_N u).
Proof.
  intros Hu. simpl. rewrite N.eqb_refl. replace (0 <=? u)%Z with true; [reflexivity |].
  symmetry. apply Z.leb_le. exact Hu.
Qed.

Lemma rounds_clock (free_memory : Z -> Z) (n : nat) :
  (forall t, (0 <= free_memory t)%Z) ->
  forall w w', rounds free_memory n w w' ->
  (w_clock w + Z.of_nat n <= w_clock w' <= w_clock w + 10 * Z.of_nat n)%Z.
Proof.
  intros Hf. induction n as [| n IH]; intros w w' Hr.
  - simpl in Hr. subst. lia.
  - destruct Hr as [w1 [Ho Hr]].
    destruct (round_summary free_memory w w1 Hf Ho) as [j [Hj [Hc _]]].
    specialize (IH w1 w' Hr). lia.
Qed.

Lemma rounds_SEUCases (free_memory : Z -> Z) (n : nat) :
  (forall t, (0 <= free_memory t)%Z) ->
  forall w w', rounds free_memory n w w' ->
  (SEUCases (w_stat w) <= SEUCases (w_stat w') <= SEUCases (w_stat w) + Z.of_nat n)%Z.
Proof.
  intros Hf. induction n as [| n IH]; intros w w' Hr.
  - simpl in Hr. subst. lia.
  - destruct Hr as [w1 [Ho Hr]].
    destruct (round_summary free_memory w w1 Hf Ho) as [j [Hj [Hc [_ Hcases]]]].
    specialize (IH w1 w' Hr).
    assert (H1 : (SEUCases (w_stat w) <= SEUCases (w_stat w1) <= SEUCases (w_stat w) + 1)%Z).
    { cbv zeta in Hcases.
      destruct Hcases as [[-> _] | [[_ [-> _]] | [_ [_ [-> _]]]]];
        try rewrite checkpoint_stat_SEUCases;
        try destruct (ba_index_one (data (w_det w))); lia. }
    lia.
Qed.

Lemma rounds_file (free_memory : Z -> Z) (n : nat) :
  (forall t, (0 <= free_memory t)%Z) ->
  forall w w', rounds free_memory n w w' ->
  exists l, w_file w' = l ++ w_file w /\ (length l <= n)%nat /\
            Forall stat_consistent l /\ (file_mirrors_stat w -> file_mirrors_stat w').
Proof.
  intros Hf. induction n as [| n IH]; intros w w' Hr.
  - simpl in Hr. subst. exists []. split; [reflexivity |]. split; [simpl; lia |].
    split; [constructor | auto].
  - destruct Hr as [w1 [Ho Hr]].
    destruct (IH w1 w' Hr) as [l2 [Hl2 [Hlen2 [Hc2 Hm2]]]].
    destruct (round_summary free_memory w w1 Hf Ho) as [j [_ [_ [_ Hcases]]]].
    cbv zeta in Hcases.
    destruct Hcases as [[Hs [Hfl _]] | [[_ [Hs [Hfl _]]] | [_ [_ [Hs [Hfl _]]]]]].
    + exists l2. rewrite Hl2, Hfl. split; [reflexivity |]. split; [lia |].
      split; [exact Hc2 |]. intros Hm. apply Hm2.
      unfold file_mirrors_stat in *. rewrite Hs, Hfl. exact Hm.
    + exists (l2 ++ [checkpoint_stat (w_stat w) (data (w_det w)) j]).
      rewrite Hl2, Hfl, <- app_assoc. split; [reflexivity |].
      split; [rewrite length_app; simpl; lia |].
      split; [apply Forall_app; split; [exact Hc2 | constructor; [apply checkpoint_stat_consistent | constructor]] |].
      intros _. apply Hm2. right. exists (w_file w). rewrite Hs, Hfl. reflexivity.
    + exists (l2 ++ [checkpoint_stat (w_stat w) (data (w_det w)) j]).
      rewrite Hl2, Hfl, <- app_assoc. split; [reflexivity |].
      split; [rewrite length_app; simpl; lia |].
      split; [apply Forall_app; split; [exact Hc2 | constructor; [apply checkpoint_stat_consistent | constructor]] |].
      intros _. apply Hm2. right. exists (w_file w). rewrite Hs, Hfl. reflexivity.
Qed.

Lemma rounds_allocs (free_memory : Z -> Z) (n : nat) :
  (forall t, (0 <= free_memory t)%Z) ->
  forall w w', rounds free_memory n w w' ->
  exists l, w_allocs w' = w_allocs w ++ l /\
            chain_ok (ba_len (data (w_det w))) l = Some (ba_len (data (w_det w'))) /\
            (length l <= n)%nat.
Proof.
  intros Hf. induction n as [| n IH]; intros w w' Hr.
  - simpl in Hr. subst. exists []. rewrite app_nil_r. split; [reflexivity |].
    split; [reflexivity | simpl; lia].
  - destruct Hr as [w1 [Ho Hr]].
    destruct (IH w1 w' Hr) as [l2 [Hl2 [Hch2 Hlen2]]].
    destruct (round_summary free_memory w w1 Hf Ho) as [j [_ [_ [_ Hcases]]]].
    cbv zeta in Hcases.
    destruct Hcases as [[_ [_ [u [Hu [Ha Hd]]]]] | [[_ [_ [_ [u [Hu [Ha Hd]]]]]] |
                        [_ [_ [_ [_ [Ha Hd]]]]]]].
    + exists ((ba_len (data (w_det w)), u) :: l2). rewrite Hl2, Ha, <- app_assoc.
      split; [reflexivity |]. split; [| simpl; lia].
      change ((ba_len (data (w_det w)), u) :: l2) with ([(ba_len (data (w_det w)), u)] ++ l2).
      rewrite chain_ok_app, chain_ok_one by exact Hu. rewrite Hd in Hch2. exact Hch2.
    + exists ((ba_len (data (w_det w)), u) :: l2). rewrite Hl2, Ha, <- app_assoc.
      split; [reflexivity |]. split; [| simpl; lia].
      change ((ba_len (data (w_det w)), u) :: l2) with ([(ba_len (data (w_det w)), u)] ++ l2).
      rewrite chain_ok_app, chain_ok_one by exact Hu. rewrite Hd in Hch2. exact Hch2.
    + exists l2. rewrite Hl2, Ha. split; [reflexivity |]. rewrite Hd in Hch2.
      split; [exact Hch2 | lia].
Qed.

Lemma rounds_exposure (free_memory : Z -> Z) (n : nat) :
  (forall t, (0 <= free_memory t)%Z) ->
  forall w w', rounds free_memory n w w' ->
  runSeconds (w_stat w) <= runSeconds (w_stat w') <=
    runSeconds (w_stat w) + inject_Z (w_clock w' - w_clock w) /\
  bitSeconds (w_stat w) <= bitSeconds (w_stat w').
Proof.
  intros Hf. induction n as [| n IH]; intros w w' Hr.
  - simpl in Hr. subst. rewrite Z.sub_diag. change (inject_Z 0) with 0.
    split; [split |]; lra.
  - destruct Hr as [w1 [Ho Hr]].
    destruct (IH w1 w' Hr) as [[IH1 IH2] IH3].
    destruct (round_summary free_memory w w1 Hf Ho) as [j [Hj [Hc [_ Hcases]]]].
    assert (Hsplit : inject_Z (w_clock w' - w_clock w) ==
                     inject_Z (w_clock w' - w_clock w1) + inject_Z j).
    { replace (w_clock w' - w_clock w)%Z with ((w_clock w' - w_clock w1) + j)%Z by lia.
      rewrite inject_Z_plus. reflexivity. }
    assert (Hj0 : 0 <= inject_Z j) by (change 0 with (inject_Z 0); rewrite <- Zle_Qle; lia).
    assert (Hcl : 0 <= inject_Z (w_clock w' - w_clock w1)).
    { change 0 with (inject_Z 0); rewrite <- Zle_Qle. pose proof (rounds_clock free_memory n Hf w1 w' Hr). lia. }
    cbv zeta in Hcases.
    destruct Hcases as [[Hs _] | [[_ [Hs _]] | [_ [_ [Hs _]]]]]; rewrite Hs in IH1, IH2, IH3.
    + split; [split |]; lra.
    + rewrite checkpoint_stat_runSeconds in IH1, IH2. rewrite checkpoint_stat_bitSeconds in IH3.
      assert (HL : 0 <= inject_Z (Z.of_N (ba_len (data (w_det w)))) * inject_Z j).
      { apply Qmult_le_0_compat; [change 0 with (inject_Z 0); rewrite <- Zle_Qle; lia | exact Hj0]. }
      split; [split |]; lra.
    + rewrite checkpoint_stat_runSeconds in IH1, IH2. rewrite checkpoint_stat_bitSeconds in IH3.
      assert (HL : 0 <= inject_Z (Z.of_N (ba_len (data (w_det w)))) * inject_Z j).
      { apply Qmult_le_0_compat; [change 0 with (inject_Z 0); rewrite <- Zle_Qle; lia | exact Hj0]. }
      split; [split |]; lra.
Qed.

Lemma run_rounds (free_memory : Z -> Z) (fuel n : nat) (w : world) :
  (forall t, (0 <= free_memory t)%Z) -> (10 <= fuel)%nat ->
  exists w', run free_memory fuel n w = inr (tt, w') /\
    rounds free_memory n
      (realloc_world (memory_target free_memory w)
         (mk_world (w_det w) (stat_on_disk w) (w_file w) (w_allocs w) (w_clock w))) w'.
Proof.
  intros Hf Hfuel. unfold run, bind at 1. rewrite run_init_eq by apply Hf.
  destruct (run_loop_rounds free_memory fuel n Hf Hfuel
              (realloc_world (memory_target free_memory w)
                 (mk_world (w_det w) (stat_on_disk w) (w_file w) (w_allocs w) (w_clock w))))
    as [w' [H1 H2]].
  exists w'. split; [exact H1 | exact H2].
Qed.

(** ** Properties of the detector beyond the specification's claims *)


(** [get_memory_to_use()] leaves the world unchanged and, for a
    non-negative free-memory reading [F] (bytes) and an arena of [L] bits,
    returns the integer part [r] of [0.75 * (F + L/8)]:
    [0 <= r] and [32 r <= 3 (8 F + L) < 32 r + 32]. *)
Theorem get_memory_to_use_floor (free_memory : Z -> Z) (w : world) :
  (0 <= free_memory (w_clock w))%Z ->
  exists r, get_memory_to_use free_memory w = inr (r, w) /\ (0 <= r)%Z /\
    (32 * r <= 3 * (8 * free_memory (w_clock w) + Z.of_N (ba_len (data (w_det w)))) <
     32 * r + 32)%Z.
Proof.
  intros Hf. rewrite get_memory_to_use_eq. eexists. split; [reflexivity |].
  set (F := free_memory (w_clock w)). set (L := Z.of_N (ba_len (data (w_det w)))).
  set (q := (inject_Z F + inject_Z L / inject_Z 8) * FREE_MEMORY_USAGE_RATE).
  assert (HL : (0 <= L)%Z) by (unfold L; lia).
  set (a := (3 * (8 * F + L))%Z).
  assert (Hq : q == inject_Z a * (1 # 32)).
  { unfold q, a, FREE_MEMORY_USAGE_RATE. rewrite inject_Z_mult, inject_Z_plus, inject_Z_mult.
    field. }
  assert (Ha : 0 <= inject_Z a)
    by (change 0 with (inject_Z 0); rewrite <- Zle_Qle; unfold a; lia).
  assert (Hq0 : 0 <= q) by lra.
  rewrite (Qtrunc_floor q Hq0).
  assert (H1 := Qfloor_le q). assert (H2 := Qlt_floor q).
  split; [| split].
  - assert (H := Qfloor_resp_le 0 q Hq0). simpl in H. exact H.
  - rewrite Zle_Qle, inject_Z_mult. change (inject_Z 32) with (32 # 1). lra.
  - rewrite Zlt_Qlt, inject_Z_plus, inject_Z_mult. change (inject_Z 32) with (32 # 1).
    rewrite inject_Z_plus in H2. change (inject_Z 1) with 1 in H2. lra.
Qed.

Lemma get_memory_to_use_floor_witness :
  exists r, get_memory_to_use probe_1GB (fresh_world 0) = inr (r, fresh_world 0) /\
    (0 <= r)%Z /\
    (32 * r <= 3 * (8 * probe_1GB (w_clock (fresh_world 0)) +
                    Z.of_N (ba_len (data (w_det (fresh_world 0))))) < 32 * r + 32)%Z.
Proof. apply get_memory_to_use_floor. unfold probe_1GB. lia. Defined.

(** [get_memory_to_use()] is monotone: more free memory and a longer
    current arena never give a smaller target. *)
Theorem get_memory_to_use_monotone (f1 f2 : Z -> Z) (w1 w2 : world) :
  (0 <= f1 (w_clock w1))%Z -> (f1 (w_clock w1) <= f2 (w_clock w2))%Z ->
  (ba_len (data (w_det w1)) <= ba_len (data (w_det w2)))%N ->
  exists r1 r2, get_memory_to_use f1 w1 = inr (r1, w1) /\
                get_memory_to_use f2 w2 = inr (r2, w2) /\ (r1 <= r2)%Z.
Proof.
  intros H0 Hf HL. rewrite !get_memory_to_use_eq.
  do 2 eexists. split; [reflexivity |]. split; [reflexivity |].
  set (F1 := f1 (w_clock w1)) in *. set (F2 := f2 (w_clock w2)) in *.
  set (L1 := Z.of_N (ba_len (data (w_det w1)))).
  set (L2 := Z.of_N (ba_len (data (w_det w2)))).
  assert (HL1 : (0 <= L1)%Z) by (unfold L1; lia).
  assert (HL12 : (L1 <= L2)%Z) by (unfold L1, L2; lia).
  set (q1 := (inject_Z F1 + inject_Z L1 / inject_Z 8) * FREE_MEMORY_USAGE_RATE).
  set (q2 := (inject_Z F2 + inject_Z L2 / inject_Z 8) * FREE_MEMORY_USAGE_RATE).
  assert (E1 : q1 == (inject_Z F1 + inject_Z L1 * (1 # 8)) * (3 # 4))
    by (unfold q1, FREE_MEMORY_USAGE_RATE; field).
  assert (E2 : q2 == (inject_Z F2 + inject_Z L2 * (1 # 8)) * (3 # 4))
    by (unfold q2, FREE_MEMORY_USAGE_RATE; field).
  assert (G0 : 0 <= inject_Z F1) by (change 0 with (inject_Z 0); rewrite <- Zle_Qle; lia).
  assert (G1 : 0 <= inject_Z L1) by (change 0 with (inject_Z 0); rewrite <- Zle_Qle; lia).
  assert (G2 : inject_Z F1 <= inject_Z F2) by (rewrite <- Zle_Qle; lia).
  assert (G3 : inject_Z L1 <= inject_Z L2) by (rewrite <- Zle_Qle; lia).
  assert (Hq1 : 0 <= q1) by lra.
  assert (Hq2 : 0 <= q2) by lra.
  rewrite (Qtrunc_floor q1 Hq1), (Qtrunc_floor q2 Hq2).
  apply Qfloor_resp_le. lra.
Qed.

Lemma get_memory_to_use_monotone_witness :
  exists r1 r2,
    get_memory_to_use probe_1GB (fresh_world 0) = inr (r1, fresh_world 0) /\
    get_memory_to_use probe_1GB (mk_world settled_det zero_stat [] [] 0) =
      inr (r2, mk_world settled_det zero_stat [] [] 0) /\ (r1 <= r2)%Z.
Proof. apply get_memory_to_use_monotone; unfold probe_1GB; simpl; lia. Defined.

(** [should_update_array] changes nothing but [force_reinit], which it
    leaves false: the arena, the statistics, the file, the allocation log
    and the clock are kept. *)
Theorem should_update_array_frame (u : Z) (w : world) :
  exists v w', should_update_array u w = inr (v, w') /\
    data (w_det w') = data (w_det w) /\ force_reinit (w_det w') = false /\
    w_stat w' = w_stat w /\ w_file w' = w_file w /\ w_allocs w' = w_allocs w /\
    w_clock w' = w_clock w.
Proof.
  destruct (should_update_array_cases u w) as [v [H _]].
  exists v. eexists. split; [exact H |]. repeat split.
Qed.

(** No thrashing: right after [update_array(use_bits)], with the flag
    clear, the sizing policy asked for the same length answers NO_UPDATE
    (also for a zero length). *)
Theorem update_array_then_no_update (u : Z) (w : world) :
  (0 <= u)%Z -> force_reinit (w_det w) = false ->
  result_of (update_array u ;; should_update_array u) w = Some NO_UPDATE.
Proof.
  intros Hu Hf. unfold result_of, bind at 1. rewrite update_array_world by exact Hu.
  unfold realloc_world, should_update_array, bind, get_det.
  cbn [w_det force_reinit data ba_len].
  rewrite Hf, Z2N.id by exact Hu.
  destruct (Z.eqb_spec u 0) as [-> | Hn]; [reflexivity |].
  cbn [negb andb]. rewrite Z.sub_diag, Z.min_id. unfold py_truediv.
  replace (u =? 0)%Z with false by (symmetry; apply Z.eqb_neq; exact Hn).
  unfold ret. simpl. reflexivity.
Qed.

Lemma update_array_then_no_update_witness :
  result_of (update_array 800 ;; should_update_array 800) (fresh_world 0) = Some NO_UPDATE.
Proof. apply update_array_then_no_update; [lia | reflexivity]. Defined.




(** The memory check of [run_once] by the decision of the sizing policy:
    NO_UPDATE (only with the flag clear) changes nothing and records the
    time of the check; UPDATE_NO_CHECK reallocates to the target without a
    checkpoint; UPDATE_WITH_CHECK (only with the flag clear) checkpoints
    with the old length first, then reallocates. *)
Theorem memory_check_outcomes (free_memory : Z -> Z) (start_at : Z) (w : world) :
  (0 <= free_memory (w_clock w))%Z ->
  let u := memory_target free_memory w in
  let v := result_of (should_update_array u) w in
  (v = Some NO_UPDATE /\ force_reinit (w_det w) = false /\
   memory_check free_memory start_at w = inr (Some (w_clock w), clear_force w)) \/
  (v = Some UPDATE_NO_CHECK /\
   memory_check free_memory start_at w = inr (None, realloc_world u (clear_force w))) \/
  (v = Some UPDATE_WITH_CHECK /\ force_reinit (w_det w) = false /\
   memory_check free_memory start_at w =
     inr (None, realloc_world u (checkpoint_world start_at (clear_force w)))).
Proof. intros Hf. exact (memory_check_by_decision free_memory start_at w Hf). Qed.

Lemma memory_check_outcomes_witness :
  let u := memory_target probe_1GB (fresh_world 0) in
  let v := result_of (should_update_array u) (fresh_world 0) in
  (v = Some NO_UPDATE /\ force_reinit (w_det (fresh_world 0)) = false /\
   memory_check probe_1GB 0 (fresh_world 0) =
     inr (Some (w_clock (fresh_world 0)), clear_force (fresh_world 0))) \/
  (v = Some UPDATE_NO_CHECK /\
   memory_check probe_1GB 0 (fresh_world 0) =
     inr (None, realloc_world u (clear_force (fresh_world 0)))) \/
  (v = Some UPDATE_WITH_CHECK /\ force_reinit (w_det (fresh_world 0)) = false /\
   memory_check probe_1GB 0 (fresh_world 0) =
     inr (None, realloc_world u (checkpoint_world 0 (clear_force (fresh_world 0))))).
Proof. apply memory_check_outcomes. unfold probe_1GB. lia. Defined.



(** Each round writes the statistics file at most once (adding the new
    in-memory record as its newest version, older versions kept) and
    reallocates the arena at most once (from its length at the start of the
    round, to a fresh all-zero arena); it does at least one of the two, and
    the in-memory statistics change only together with a file write. *)
Theorem run_once_writes_or_reallocates (free_memory : Z -> Z) (fuel : nat) (w : world) :
  (forall t, (0 <= free_memory t)%Z) -> (10 <= fuel)%nat ->
  exists w', run_once free_memory fuel w = inr (true, w') /\
    ((w_file w' = w_file w /\ w_stat w' = w_stat w) \/
     w_file w' = w_stat w' :: w_file w) /\
    (w_allocs w' = w_allocs w \/
     exists u, (0 <= u)%Z /\ w_allocs w' = w_allocs w ++ [(ba_len (data (w_det w)), u)] /\
               data (w_det w') = mk_bitarray (Z.to_N u) []) /\
    (w_file w' = w_file w -> w_allocs w' <> w_allocs w).
Proof.
  intros Hf Hfuel.
  destruct (run_once_round free_memory fuel w Hf Hfuel) as [w' [Hrun Ho]].
  exists w'. split; [exact Hrun |].
  destruct (round_summary free_memory w w' Hf Ho) as [j [_ [_ [_ Hcases]]]].
  cbv zeta in Hcases.
  destruct Hcases as [[Hs [Hfl [u [Hu [Ha Hd]]]]] | [[_ [Hs [Hfl [u [Hu [Ha Hd]]]]]] |
                      [_ [_ [Hs [Hfl [Ha _]]]]]]].
  - split; [left; split; assumption |].
    split; [right; exists u; rewrite Hd; split; [exact Hu | split; reflexivity + exact Ha] |].
    intros _. rewrite Ha. apply app_one_neq.
  - split; [right; rewrite Hfl, Hs; reflexivity |].
    split; [right; exists u; split; [exact Hu | split; assumption] |].
    intros H. rewrite Hfl in H. exfalso. exact (cons_neq _ _ H).
  - split; [right; rewrite Hfl, Hs; reflexivity |].
    split; [left; exact Ha |].
    intros H. rewrite Hfl in H. exfalso. exact (cons_neq _ _ H).
Qed.

Lemma run_once_writes_or_reallocates_witness :
  exists w', run_once probe_1GB 10 (fresh_world 0) = inr (true, w') /\
    ((w_file w' = w_file (fresh_world 0) /\ w_stat w' = w_stat (fresh_world 0)) \/
     w_file w' = w_stat w' :: w_file (fresh_world 0)) /\
    (w_allocs w' = w_allocs (fresh_world 0) \/
     exists u, (0 <= u)%Z /\
       w_allocs w' = w_allocs (fresh_world 0) ++ [(ba_len (data (w_det (fresh_world 0))), u)] /\
       data (w_det w') = mk_bitarray (Z.to_N u) []) /\
    (w_file w' = w_file (fresh_world 0) -> w_allocs w' <> w_allocs (fresh_world 0)).
Proof. apply run_once_writes_or_reallocates; [intros t; unfold probe_1GB; lia | lia]. Defined.







(** Over [n] rounds of [run], [SEUCases] never decreases and grows by at
    most one per round, from the value loaded from the file. *)
Theorem run_SEUCases_bounds (free_memory : Z -> Z) (fuel n : nat) (w : world) :
  (forall t, (0 <= free_memory t)%Z) -> (10 <= fuel)%nat ->
  exists w', run free_memory fuel n w = inr (tt, w') /\
    (SEUCases (stat_on_disk w) <= SEUCases (w_stat w') <=
     SEUCases (stat_on_disk w) + Z.of_nat n)%Z.
Proof.
  intros Hf Hfuel. destruct (run_rounds free_memory fuel n w Hf Hfuel) as [w' [Hrun Hr]].
  exists w'. split; [exact Hrun |]. exact (rounds_SEUCases free_memory n Hf _ w' Hr).
Qed.

Lemma run_SEUCases_bounds_witness :
  exists w', run probe_1GB 10 3 (fresh_world 0) = inr (tt, w') /\
    (SEUCases (stat_on_disk (fresh_world 0)) <= SEUCases (w_stat w') <=
     SEUCases (stat_on_disk (fresh_world 0)) + Z.of_nat 3)%Z.
Proof. apply run_SEUCases_bounds; [intros t; unfold probe_1GB; lia | lia]. Defined.

(** The statistics file over [n] rounds of [run]: the versions present
    before are kept, at most [n] are added, each with consistent derived
    fields, and its newest version is always the in-memory record (or the
    file is still absent and the record all zeros), so stopping the process
    loses no accounted exposure. *)
Theorem run_file_history (free_memory : Z -> Z) (fuel n : nat) (w : world) :
  (forall t, (0 <= free_memory t)%Z) -> (10 <= fuel)%nat ->
  exists w', run free_memory fuel n w = inr (tt, w') /\
    exists l, w_file w' = l ++ w_file w /\ (length l <= n)%nat /\
              Forall stat_consistent l /\ file_mirrors_stat w'.
Proof.
  intros Hf Hfuel. destruct (run_rounds free_memory fuel n w Hf Hfuel) as [w' [Hrun Hr]].
  exists w'. split; [exact Hrun |].
  destruct (rounds_file free_memory n Hf _ w' Hr) as [l [Hl [Hlen [Hc Hm]]]].
  exists l. split; [exact Hl |]. split; [exact Hlen |]. split; [exact Hc |].
  apply Hm. unfold file_mirrors_stat, realloc_world, stat_on_disk. cbn [w_file w_stat].
  destruct (w_file w) as [| s rest]; [left; split; reflexivity | right; exists rest; reflexivity].
Qed.

Lemma run_file_history_witness :
  exists w', run probe_1GB 10 3 (fresh_world 0) = inr (tt, w') /\
    exists l, w_file w' = l ++ w_file (fresh_world 0) /\ (length l <= 3)%nat /\
              Forall stat_consistent l /\ file_mirrors_stat w'.
Proof. apply run_file_history; [intros t; unfold probe_1GB; lia | lia]. Defined.

(** The reallocations of [run] form a chain: the log gains between 1 and
    [n + 1] entries, each starting from the length the previous one left
    (the first from the initial length), each to a non-negative length,
    the last one giving the final arena length. *)
Theorem run_allocation_chain (free_memory : Z -> Z) (fuel n : nat) (w : world) :
  (forall t, (0 <= free_memory t)%Z) -> (10 <= fuel)%nat ->
  exists w', run free_memory fuel n w = inr (tt, w') /\
    exists l, w_allocs w' = w_allocs w ++ l /\
              chain_ok (ba_len (data (w_det w))) l = Some (ba_len (data (w_det w'))) /\
              (1 <= length l <= S n)%nat.
Proof.
  intros Hf Hfuel. destruct (run_rounds free_memory fuel n w Hf Hfuel) as [w' [Hrun Hr]].
  exists w'. split; [exact Hrun |].
  destruct (rounds_allocs free_memory n Hf _ w' Hr) as [l [Hl [Hch Hlen]]].
  exists ((ba_len (data (w_det w)), memory_target free_memory w) :: l).
  split; [rewrite Hl; unfold realloc_world; cbn [w_allocs]; rewrite <- app_assoc; reflexivity |].
  split; [| simpl; lia].
  change ((ba_len (data (w_det w)), memory_target free_memory w) :: l) with
    ([(ba_len (data (w_det w)), memory_target free_memory w)] ++ l).
  rewrite chain_ok_app, chain_ok_one by (apply memory_target_nonneg; apply Hf).
  exact Hch.
Qed.

Lemma run_allocation_chain_witness :
  exists w', run probe_1GB 10 3 (fresh_world 0) = inr (tt, w') /\
    exists l, w_allocs w' = w_allocs (fresh_world 0) ++ l /\
              chain_ok (ba_len (data (w_det (fresh_world 0)))) l =
                Some (ba_len (data (w_det w'))) /\
              (1 <= length l <= S 3)%nat.
Proof. apply run_allocation_chain; [intros t; unfold probe_1GB; lia | lia]. Defined.

(** Over [n] rounds of [run], [runSeconds] and [bitSeconds] never decrease,
    and the run time accounted never exceeds the wall-clock time elapsed. *)
Theorem run_exposure_bounds (free_memory : Z -> Z) (fuel n : nat) (w : world) :
  (forall t, (0 <= free_memory t)%Z) -> (10 <= fuel)%nat ->
  exists w', run free_memory fuel n w = inr (tt, w') /\
    runSeconds (stat_on_disk w) <= runSeconds (w_stat w') <=
      runSeconds (stat_on_disk w) + inject_Z (w_clock w' - w_clock w) /\
    bitSeconds (stat_on_disk w) <= bitSeconds (w_stat w').
Proof.
  intros Hf Hfuel. destruct (run_rounds free_memory fuel n w Hf Hfuel) as [w' [Hrun Hr]].
  exists w'. split; [exact Hrun |]. exact (rounds_exposure free_memory n Hf _ w' Hr).
Qed.

Lemma run_exposure_bounds_witness :
  exists w', run probe_1GB 10 3 (fresh_world 0) = inr (tt, w') /\
    runSeconds (stat_on_disk (fresh_world 0)) <= runSeconds (w_stat w') <=
      runSeconds (stat_on_disk (fresh_world 0)) + inject_Z (w_clock w' - w_clock (fresh_world 0)) /\
    bitSeconds (stat_on_disk (fresh_world 0)) <= bitSeconds (w_stat w').
Proof. apply run_exposure_bounds; [intros t; unfold probe_1GB; lia | lia]. Defined.

